(** * create-modern-react-app: template resolution and guarded materialization

    A shallow embedding of [index.js].  The source file holds two variants
    of the command-line tool:

    - the _confinement_ variant (first document of [index.js]), whose
      [validateTemplate] resolves [template-<name>] under the templates
      root through the filesystem and scans the template manifest;
    - the _allow-list_ variant (second document), whose [validateTemplate]
      is a membership test in [AVAILABLE_TEMPLATES] and whose
      [createProject] guards the destination and rolls back a failed fetch.

    Each variant lives in a module of its own ([Confinement], [AllowList])
    and keeps the names of the source. *)

From Stdlib Require Import String Ascii List Bool NArith ZArith Lia.
Import ListNotations.
Local Open Scope string_scope.

(** ** JavaScript strings

    A JavaScript string is a sequence of UTF-16 code units.  The strings of
    this development are those whose code units lie in U+0000..U+00FF, one
    [ascii] per code unit; on them [trim] and [toLowerCase] are given exactly
    by the tables of ECMAScript (WhiteSpace and LineTerminator; Unicode
    simple lower-casing of Latin-1). *)
Module JsString.

Definition code (c : ascii) : N := N_of_ascii c.

Definition between (lo hi : N) (c : ascii) : bool :=
  ((lo <=? code c) && (code c <=? hi))%N.

(** TAB, LF, VT, FF, CR, SP and NBSP. *)
Definition isWhiteSpace (c : ascii) : bool :=
  between 9 13 c || (code c =? 32)%N || (code c =? 160)%N.

Fixpoint trimStart (s : string) : string :=
  match s with
  | String c s' => if isWhiteSpace c then trimStart s' else s
  | EmptyString => EmptyString
  end.

Definition isEmpty (s : string) : bool :=
  match s with EmptyString => true | String _ _ => false end.

Fixpoint trimEnd (s : string) : string :=
  match s with
  | String c s' =>
      let r := trimEnd s' in
      if isWhiteSpace c && isEmpty r then EmptyString else String c r
  | EmptyString => EmptyString
  end.

(** [String.prototype.trim] *)
Definition trim (s : string) : string := trimEnd (trimStart s).

Definition lowerChar (c : ascii) : ascii :=
  if between 65 90 c || between 192 214 c || between 216 222 c
  then ascii_of_N (code c + 32)
  else c.

Fixpoint mapChars (f : ascii -> ascii) (s : string) : string :=
  match s with
  | String c s' => String (f c) (mapChars f s')
  | EmptyString => EmptyString
  end.

(** [String.prototype.toLowerCase] *)
Definition toLowerCase (s : string) : string := mapChars lowerChar s.

Fixpoint allChars (p : ascii -> bool) (s : string) : bool :=
  match s with
  | String c s' => p c && allChars p s'
  | EmptyString => true
  end.

(** [/^[C]+$/.test(s)] for a character class [C]: the regular expressions
    of the source have no flags, so [^] and [$] are the two ends of the
    input. *)
Definition testClassPlus (cls : ascii -> bool) (s : string) : bool :=
  negb (isEmpty s) && allChars cls s.

(** [s.startsWith(p)] *)
Definition startsWith (s p : string) : bool := String.prefix p s.

(** [xs.includes(s)] for an array of strings [xs]. *)
Definition includes (xs : list string) (s : string) : bool :=
  existsb (String.eqb s) xs.

(** [xs.join(sep)] *)
Fixpoint join (sep : string) (xs : list string) : string :=
  match xs with
  | [] => ""
  | [x] => x
  | x :: rest => x ++ sep ++ join sep rest
  end.

End JsString.
Import JsString.

(** ** JavaScript values

    [options.template] and the argument of [validateTemplate] are untyped:
    the tests [!t] and [typeof t !== "string"] are modelled on the values a
    caller can pass. *)
Inductive JsValue : Type :=
| JsUndefined
| JsNull
| JsBoolean (b : bool)
| JsNumber (z : Z)
| JsStr (s : string)
| JsObject.

(** [!!v] *)
Definition truthy (v : JsValue) : bool :=
  match v with
  | JsUndefined | JsNull => false
  | JsBoolean b => b
  | JsNumber z => negb (z =? 0)%Z
  | JsStr s => negb (isEmpty s)
  | JsObject => true
  end.

(** [typeof v === "string"] *)
Definition isString (v : JsValue) : bool :=
  match v with JsStr _ => true | _ => false end.

(** [v !== w] for a string [v]. *)
Definition strictNeqStr (v : string) (w : JsValue) : bool :=
  match w with JsStr s => negb (String.eqb v s) | _ => true end.

(** [const AVAILABLE_TEMPLATES = ["base", "redux"];] (both variants) *)
Definition AVAILABLE_TEMPLATES : list string := ["base"; "redux"].

(** [[a-z0-9-]] *)
Definition templateChar (c : ascii) : bool :=
  between 97 122 c || between 48 57 c || (code c =? 45)%N.

(** [[a-zA-Z0-9-_]] *)
Definition projectChar (c : ascii) : bool :=
  between 97 122 c || between 65 90 c || between 48 57 c
  || (code c =? 45)%N || (code c =? 95)%N.

(** [/^[a-z0-9-]+$/.test(name)] *)
Definition templateNameRe (name : string) : bool := testClassPlus templateChar name.

(** [/^[a-zA-Z0-9-_]+$/.test(name)] *)
Definition projectNameRe (name : string) : bool := testClassPlus projectChar name.

(** The name both variants compute first: [t.trim().toLowerCase()]. *)
Definition normalize (s : string) : string := toLowerCase (trim s).

(** ** Paths

    [path] of Node on a POSIX system.  An absolute, normalized path is the
    list of its segments: [/a/b] is [["a"; "b"]] and [/] is [[]]. *)
Module Path.

Definition path : Type := list string.

(** [s.split("/")] *)
Fixpoint segments (s : string) : list string :=
  match s with
  | EmptyString => [""]
  | String c s' =>
      if Ascii.eqb c "/" then "" :: segments s'
      else match segments s' with
           | x :: rest => String c x :: rest
           | [] => [String c ""]
           end
  end.

(** [path.isAbsolute(s)] *)
Definition isAbsolute (s : string) : bool := startsWith s "/".

Definition enter (acc : path) (seg : string) : path :=
  if (seg =? "") || (seg =? ".") then acc
  else if seg =? ".." then removelast acc
  else (acc ++ [seg])%list.

(** [path.resolve(base, rel)] for an absolute normalized [base]. *)
Definition resolve (base : path) (rel : string) : path :=
  fold_left enter (segments rel) (if isAbsolute rel then [] else base).

(** [path.join(base, seg)] for a plain file name [seg]. *)
Definition join (base : path) (seg : string) : path := (base ++ [seg])%list.

(** [path.dirname(p)] *)
Definition dirname (p : path) : path := removelast p.

(** The string of an absolute path. *)
Definition render (p : path) : string := "/" ++ JsString.join "/" p.

Fixpoint stripCommon (from to : path) : path * path :=
  match from, to with
  | x :: from', y :: to' =>
      if x =? y then stripCommon from' to' else (from, to)
  | _, _ => (from, to)
  end.

(** [path.relative(from, to)] for absolute normalized paths: one [..] for
    each segment of [from] below the common ancestor, then the segments of
    [to] below it. *)
Definition relative (from to : path) : string :=
  let (up, down) := stripCommon from to in
  JsString.join "/" (repeat ".." (length up) ++ down)%list.

(** [p] is [q] or an ancestor of [q]. *)
Fixpoint isPrefix (p q : path) : bool :=
  match p, q with
  | [], _ => true
  | x :: p', y :: q' => (x =? y) && isPrefix p' q'
  | _ :: _, [] => false
  end.

End Path.
Definition path : Type := Path.path.

(** ** Parsed JSON (the value of [fs.readJsonSync]) *)
#[local] Set Warnings "-register-all".
Inductive Json : Type :=
| JsonNull
| JsonBool (b : bool)
| JsonNumber (z : Z)
| JsonString (s : string)
| JsonArray (items : list Json)
| JsonObject (fields : list (string * Json)).

Definition jsonTruthy (j : Json) : bool :=
  match j with
  | JsonNull => false
  | JsonBool b => b
  | JsonNumber z => negb (z =? 0)%Z
  | JsonString s => negb (isEmpty s)
  | JsonArray _ | JsonObject _ => true
  end.

(** The last binding of a key wins, as in [JSON.parse]. *)
Fixpoint lookupField (k : string) (fields : list (string * Json)) : option Json :=
  match fields with
  | [] => None
  | (k', v) :: rest =>
      match lookupField k rest with
      | Some w => Some w
      | None => if k =? k' then Some v else None
      end
  end.

(** [j.scripts]: [None] is [undefined]. *)
Definition getScripts (j : Json) : option Json :=
  match j with
  | JsonObject fields => lookupField "scripts" fields
  | _ => None
  end.

(** [Object.prototype.hasOwnProperty.call(j, k)] for a key [k] that is
    neither an index nor [length]. *)
Definition hasOwnProperty (j : Json) (k : string) : bool :=
  match j with
  | JsonObject fields => existsb (fun kv => k =? fst kv) fields
  | _ => false
  end.

(** ** The filesystem, the collaborators and what a run leaves behind *)

(** The thrown values of the program: [err.message], [err.code] and
    [error.isTtyError]. *)
Record JsError : Type := mkError {
  message : string;
  errCode : string;
  isTtyError : bool
}.

(** What the process can ask the filesystem.  An operation that throws has
    no value ([None]); [fs.existsSync] never throws. *)
Record FileSystem : Type := mkFs {
  realpath : path -> option path;      (* fs.realpathSync *)
  exists_ : path -> bool;              (* fs.existsSync *)
  isDirectory : path -> option bool;   (* fs.statSync(p).isDirectory() *)
  readJson : path -> option Json;      (* fs.readJsonSync *)
  writable : path -> bool              (* fs.access(p, W_OK) resolves *)
}.

(** The filesystem after a successful [fs.remove(p)]: [p] and everything
    below it are gone, the rest is as before. *)
Definition removeTree (p : path) (fs : FileSystem) : FileSystem :=
  let gone q := Path.isPrefix p q in
  {| realpath q := if gone q then None else realpath fs q;
     exists_ q := if gone q then false else exists_ fs q;
     isDirectory q := if gone q then None else isDirectory fs q;
     readJson q := if gone q then None else readJson fs q;
     writable q := if gone q then false else writable fs q |}.

Inductive PromptReply : Type :=
| Answered (projectName template : string)
| PromptRejected (error : JsError).

Inductive CloneReply : Type :=
| Cloned (after : FileSystem)
| CloneFailed (err : JsError) (after : FileSystem).

Inductive RemoveReply : Type :=
| Removed
| RemoveFailed (err : JsError) (after : FileSystem).

(** The process environment and the external collaborators: the user at
    the prompt, the remote fetch and the removal of a directory tree. *)
Record Collaborators : Type := mkEnv {
  cwd : path;                                       (* process.cwd() *)
  dirname : path;                                   (* __dirname *)
  prompt : bool -> bool -> PromptReply;             (* inquirer.prompt, by the questions asked *)
  clone : string -> path -> FileSystem -> CloneReply;  (* degit(src).clone(dest) *)
  remove : path -> FileSystem -> RemoveReply        (* fs.remove(p) *)
}.

(** What is printed, by message and arguments ([chalk] only colours). *)
Inductive Message : Type :=
| LifecycleWarning (name : string) (found : list string)
| ShowAnswers (projectName template : JsValue)
| InvalidTemplate (template : JsValue)
| Creating (projectName : JsValue) (template : string)
| DirectoryExists (projectName : JsValue)
| TemplateMissing (template : string)
| CannotWrite (parentDir : path)
| ShowPaths (projectPath templatePath : path)
| Created (projectName : JsValue)
| NextSteps (projectName : JsValue)
| CleanedUp
| CleanupWarning (projectName : JsValue)
| ErrorDetails (msg : string)
| ShowError (err : JsError)
| CheckConnection
| PromptNotRendered
| SomethingWentWrong (msg : string).

Inductive Spinner : Type := SpinStart | SpinSucceed | SpinFail.

Inductive Event : Type :=
| Log (m : Message)                       (* console.log, console.error *)
| Spin (s : Spinner)                      (* ora *)
| Asked (projectName template : bool)     (* inquirer.prompt *)
| Realpath (p : path)
| Exists (p : path)
| Stat (p : path)
| ReadJson (p : path)
| Access (p : path)
| Fetch (coordinate : string) (dest : path)
| Remove (p : path).

(** ** Runs

    A computation of the program reads and changes the filesystem, emits
    events, and ends by returning, by throwing or in [process.exit]. *)
Inductive Outcome (A : Type) : Type :=
| Return (a : A)
| Throw (e : JsError)
| Exit (code : Z).
Arguments Return {A} a.
Arguments Throw {A} e.
Arguments Exit {A} code.

Record Result (A : Type) : Type := mkResult {
  outcome : Outcome A;
  fsAfter : FileSystem;
  events : list Event
}.
Arguments mkResult {A} _ _ _.
Arguments outcome {A} _.
Arguments fsAfter {A} _.
Arguments events {A} _.

Definition Run (A : Type) : Type := FileSystem -> Result A.

Definition ret {A} (a : A) : Run A := fun fs => mkResult (Return a) fs [].

Definition throw {A} (e : JsError) : Run A := fun fs => mkResult (Throw e) fs [].

(** [process.exit(code)] *)
Definition exit {A} (code : Z) : Run A := fun fs => mkResult (Exit code) fs [].

(** Events emitted before a result are put in front of its own. *)
Definition after {A} (before : list Event) (r : Result A) : Result A :=
  match r with
  | mkResult o fs evs => mkResult o fs (before ++ evs)%list
  end.

Definition bind {A B} (m : Run A) (k : A -> Run B) : Run B :=
  fun fs =>
    match m fs with
    | mkResult (Return a) fs' evs => after evs (k a fs')
    | mkResult (Throw e) fs' evs => mkResult (Throw e) fs' evs
    | mkResult (Exit c) fs' evs => mkResult (Exit c) fs' evs
    end.

(** [try { m } catch (err) { handler }]: [process.exit] is not caught. *)
Definition tryCatch {A} (m : Run A) (handler : JsError -> Run A) : Run A :=
  fun fs =>
    match m fs with
    | mkResult (Throw e) fs' evs => after evs (handler e fs')
    | r => r
    end.

Definition emit (e : Event) : Run unit := fun fs => mkResult (Return tt) fs [e].

Definition log (m : Message) : Run unit := emit (Log m).

Definition when (b : bool) (m : Run unit) : Run unit := if b then m else ret tt.

Notation "x <- m ;; k" := (bind m (fun x => k))
  (at level 61, m at next level, right associativity).
Notation "m ;;; k" := (bind m (fun _ => k))
  (at level 61, right associativity).

Definition typeError (msg : string) : JsError := mkError msg "ERR_INVALID_ARG_TYPE" false.

Definition fsError (code : string) : JsError := mkError code code false.

(** [fs.realpathSync(p)] *)
Definition realpathSync (p : path) : Run path :=
  emit (Realpath p) ;;;
  fun fs => match realpath fs p with
            | Some q => ret q fs
            | None => throw (fsError "ENOENT") fs
            end.

(** [fs.existsSync(p)] *)
Definition existsSync (p : path) : Run bool :=
  emit (Exists p) ;;; fun fs => ret (exists_ fs p) fs.

(** [fs.statSync(p).isDirectory()] *)
Definition statIsDirectory (p : path) : Run bool :=
  emit (Stat p) ;;;
  fun fs => match isDirectory fs p with
            | Some b => ret b fs
            | None => throw (fsError "ENOENT") fs
            end.

(** [fs.readJsonSync(p)] *)
Definition readJsonSync (p : path) : Run Json :=
  emit (ReadJson p) ;;;
  fun fs => match readJson fs p with
            | Some j => ret j fs
            | None => throw (fsError "EJSON") fs
            end.

(** [await fs.access(p, fs.constants.W_OK)] *)
Definition access (p : path) : Run unit :=
  emit (Access p) ;;;
  fun fs => if writable fs p then ret tt fs else throw (fsError "EACCES") fs.

(** [path.resolve(base, v)] throws a [TypeError] unless [v] is a string. *)
Definition pathResolve (base : path) (v : JsValue) : Run path :=
  match v with
  | JsStr s => ret (Path.resolve base s)
  | _ => throw (typeError "The paths argument must be of type string")
  end.

(** [a || b] *)
Definition jsOr (a b : JsValue) : JsValue := if truthy a then a else b.

(** [AVAILABLE_TEMPLATES.includes(v)] *)
Definition includesValue (xs : list string) (v : JsValue) : bool :=
  match v with JsStr s => includes xs s | _ => false end.

Section Collaborating.

Variable env : Collaborators.

(** [await inquirer.prompt(questions)]: the answers hold a key for each
    question whose [when] is true.  The [validate] callback of the first
    question only decides which input the user can submit; the reply holds
    the input that was submitted. *)
Definition inquirerPrompt (askName askTemplate : bool) : Run (JsValue * JsValue) :=
  emit (Asked askName askTemplate) ;;;
  match prompt env askName askTemplate with
  | Answered n t =>
      ret (if askName then JsStr n else JsUndefined,
           if askTemplate then JsStr t else JsUndefined)
  | PromptRejected e => throw e
  end.

(** [await degit(coordinate, ...).clone(dest)] *)
Definition degitClone (coordinate : string) (dest : path) : Run unit :=
  emit (Fetch coordinate dest) ;;;
  fun fs => match clone env coordinate dest fs with
            | Cloned fs' => mkResult (Return tt) fs' []
            | CloneFailed e fs' => mkResult (Throw e) fs' []
            end.

(** [await fs.remove(p)] *)
Definition fsRemove (p : path) : Run unit :=
  emit (Remove p) ;;;
  fun fs => match remove env p fs with
            | Removed => mkResult (Return tt) (removeTree p fs) []
            | RemoveFailed e fs' => mkResult (Throw e) fs' []
            end.

End Collaborating.

(** The exit status of the process after a run: [process.exit(code)], or 0
    when the program runs to its end, or 1 for an uncaught error. *)
Definition exitStatus {A} (r : Result A) : Z :=
  match outcome r with
  | Exit c => c
  | Return _ => 0%Z
  | Throw _ => 1%Z
  end.

(** The result of validating a project name at the prompt: [true] or the
    message shown to the user. *)
Inductive Validation : Type :=
| Accepted
| Rejected (msg : string).

(** ** The confinement variant (first document of [index.js]) *)
Module Confinement.

Definition lifecycleKeys : list string :=
  ["preinstall"; "install"; "postinstall"; "prepublish"; "prepare"].

Section WithEnv.

Variable env : Collaborators.

(** The manifest scan, lines 53-78: the [try] block either executes
    [return "base"] (in its [catch]) or falls through ([None]). *)
Definition scanManifest (name : string) (tplPkgPath : path) : Run (option string) :=
  tryCatch
    (tplPkg <- readJsonSync tplPkgPath ;;
     match (if jsonTruthy tplPkg then getScripts tplPkg else None) with
     | Some scripts =>
         if jsonTruthy scripts then
           let found := filter (hasOwnProperty scripts) lifecycleKeys in
           when (negb (length found =? 0)%nat) (log (LifecycleWarning name found)) ;;;
           ret None
         else ret None
     | None => ret None
     end)
    (fun _ => ret (Some "base")).

(** The body of the outer [try], lines 31-79: [Some v] when it executes
    [return v], [None] when control leaves the block at its end. *)
Definition confine (name : string) : Run (option string) :=
  let templatesRoot := Path.resolve (dirname env) ".." in
  let resolved := Path.resolve templatesRoot ("template-" ++ name) in
  realTemplatesRoot <- realpathSync templatesRoot ;;
  realResolved <- realpathSync resolved ;;
  let relative := Path.relative realTemplatesRoot realResolved in
  if startsWith relative ".."
     || (Path.isAbsolute relative
         && negb (startsWith (Path.render realResolved) (Path.render realTemplatesRoot)))
  then ret (Some "base") else
  there <- existsSync realResolved ;;
  if negb there then ret (Some "base") else
  isDir <- statIsDirectory realResolved ;;
  if negb isDir then ret (Some "base") else
  let tplPkgPath := Path.join realResolved "package.json" in
  hasManifest <- existsSync tplPkgPath ;;
  if hasManifest then scanManifest name tplPkgPath else ret None.

(** [function validateTemplate(t)], lines 22-85. *)
Definition validateTemplate (t : JsValue) : Run string :=
  match t with
  | JsStr s =>
      if negb (truthy t) then ret "base" else
      let name := normalize s in
      if negb (templateNameRe name) then ret "base" else
      returned <- tryCatch (confine name) (fun _ => ret (Some "base")) ;;
      match returned with
      | Some v => ret v
      | None => ret name
      end
  | _ => ret "base"
  end.

(** The [validate] callback of the project-name question, lines 97-102. *)
Definition validate (input : string) : Validation :=
  if isEmpty input || isEmpty (trim input)
  then Rejected "Project name is required"
  else Accepted.

(** The callback of [.then], lines 113-176. *)
Definition afterPrompt (projectName template : JsValue)
           (answers : JsValue * JsValue) : Run unit :=
  log (ShowAnswers (fst answers) (snd answers)) ;;;
  let projectName := jsOr projectName (fst answers) in
  finalTemplate <- validateTemplate template ;;
  when (strictNeqStr finalTemplate template) (log (InvalidTemplate template)) ;;;
  let template := finalTemplate in
  log (Creating projectName template) ;;;
  projectPath <- pathResolve (cwd env) projectName ;;
  there <- existsSync projectPath ;;
  (if there then log (DirectoryExists projectName) ;;; exit 1 else ret tt) ;;;
  let templatePath :=
    Path.resolve (Path.resolve (dirname env) "..") ("template-" ++ template) in
  found <- existsSync templatePath ;;
  (if negb found then log (TemplateMissing template) ;;; exit 1 else ret tt) ;;;
  log (ShowPaths projectPath templatePath) ;;;
  emit (Spin SpinStart) ;;;
  tryCatch
    (degitClone env "fraanlol/template-base" projectPath ;;;
     emit (Spin SpinSucceed))
    (fun err =>
       emit (Spin SpinFail) ;;;
       log (ShowError err) ;;;
       exit 1).

(** [async function createProject(projectName, options)], lines 87-186,
    with [template] for [options.template]. *)
Definition createProject (projectName template : JsValue) : Run unit :=
  tryCatch
    (answers <- inquirerPrompt env
                  (negb (truthy projectName))
                  (negb (truthy template)
                   || negb (includesValue AVAILABLE_TEMPLATES template)) ;;
     afterPrompt projectName template answers)
    (fun error =>
       if isTtyError error then log PromptNotRendered
       else log (SomethingWentWrong (message error))).

End WithEnv.

End Confinement.

(** ** The allow-list variant (second document of [index.js]) *)
Module AllowList.

(** [function validateTemplate(template)], lines 225-243. *)
Definition validateTemplate (template : JsValue) : string :=
  match template with
  | JsStr s =>
      if negb (truthy template) then "base" else
      let name := normalize s in
      if negb (templateNameRe name) then "base" else
      if negb (includes AVAILABLE_TEMPLATES name) then "base" else
      name
  | _ => "base"
  end.

(** The [validate] callback of the project-name question, lines 255-272. *)
Definition validate (input : string) : Validation :=
  if isEmpty input || isEmpty (trim input)
  then Rejected "Project name is required"
  else
    let name := trim input in
    if negb (projectNameRe name)
    then Rejected "Project name can only contain letters, numbers, hyphens, and underscores"
    else if (50 <? String.length name)%nat
    then Rejected "Project name must be 50 characters or less"
    else Accepted.

Section WithEnv.

Variable env : Collaborators.

(** The [catch] of the fetch, lines 357-387. *)
Definition rollBack (projectName : JsValue) (projectPath : path) (err : JsError) : Run unit :=
  emit (Spin SpinFail) ;;;
  there <- existsSync projectPath ;;
  (if there then
     tryCatch
       (fsRemove env projectPath ;;; log CleanedUp)
       (fun _ => log (CleanupWarning projectName))
   else ret tt) ;;;
  log (ErrorDetails (message err)) ;;;
  when (errCode err =? "COULD_NOT_DOWNLOAD") (log CheckConnection) ;;;
  exit 1.

(** The body of the outer [try], lines 249-387. *)
Definition attempt (projectName template : JsValue) : Run unit :=
  answers <- inquirerPrompt env
               (negb (truthy projectName))
               (negb (truthy template)
                || negb (includesValue AVAILABLE_TEMPLATES template)) ;;
  let projectName := jsOr projectName (fst answers) in
  let template := jsOr template (snd answers) in
  let finalTemplate := validateTemplate template in
  when (strictNeqStr finalTemplate template) (log (InvalidTemplate template)) ;;;
  let template := finalTemplate in
  log (Creating projectName template) ;;;
  projectPath <- pathResolve (cwd env) projectName ;;
  there <- existsSync projectPath ;;
  (if there then log (DirectoryExists projectName) ;;; exit 1 else ret tt) ;;;
  let parentDir := Path.dirname projectPath in
  tryCatch (access parentDir)
           (fun _ => log (CannotWrite parentDir) ;;; exit 1) ;;;
  emit (Spin SpinStart) ;;;
  tryCatch
    (degitClone env ("fraanlol/template-react-" ++ template) projectPath ;;;
     emit (Spin SpinSucceed) ;;;
     log (Created projectName) ;;;
     log (NextSteps projectName))
    (rollBack projectName projectPath).

(** [async function createProject(projectName, options)], lines 245-398,
    with [template] for [options.template]. *)
Definition createProject (projectName template : JsValue) : Run unit :=
  tryCatch
    (attempt projectName template)
    (fun error =>
       (if isTtyError error then log PromptNotRendered
        else log (SomethingWentWrong (message error))) ;;;
       exit 1).

End WithEnv.

End AllowList.

(** ** Observations on runs *)

Definition isFetch (e : Event) : bool :=
  match e with Fetch _ _ => true | _ => false end.

Definition isAccess (e : Event) : bool :=
  match e with Access _ => true | _ => false end.

Definition isRemove (e : Event) : bool :=
  match e with Remove _ => true | _ => false end.

(** Events that only read the filesystem or print. *)
Definition isQuiet (e : Event) : bool :=
  match e with
  | Log _ | Realpath _ | Exists _ | Stat _ | ReadJson _ => true
  | _ => false
  end.

(** The project name of a run: the argument when it is truthy, else what
    the user typed at the prompt ([projectName || answers.projectName]). *)
Definition projectNameOf (projectName : JsValue) (typed : string) : JsValue :=
  jsOr projectName (if negb (truthy projectName) then JsStr typed else JsUndefined).

(** Whether the template question is asked (its [when]). *)
Definition asksTemplate (template : JsValue) : bool :=
  negb (truthy template) || negb (includesValue AVAILABLE_TEMPLATES template).

(** The destination of a run, [path.resolve(process.cwd(), projectName)]. *)
Definition destination (env : Collaborators) (name : string) : path :=
  Path.resolve (cwd env) name.

(** The templates root of the confinement variant and the candidate path
    of a template name under it. *)
Definition templatesRoot (env : Collaborators) : path :=
  Path.resolve (dirname env) "..".

Definition candidate (env : Collaborators) (name : string) : path :=
  Path.resolve (templatesRoot env) ("template-" ++ name).

(** The candidate of [name] fails confinement: a real path cannot be
    computed, or the relative path from the real root to the real candidate
    starts with [..], or the real candidate does not exist or is not a
    directory. *)
Definition failsConfinement (env : Collaborators) (fs : FileSystem) (name : string) : bool :=
  match realpath fs (templatesRoot env), realpath fs (candidate env name) with
  | Some realRoot, Some realCandidate =>
      startsWith (Path.relative realRoot realCandidate) ".."
      || negb (exists_ fs realCandidate)
      || negb (match isDirectory fs realCandidate with
               | Some true => true
               | _ => false
               end)
  | _, _ => true
  end.

(** The real candidate of [name] is the real templates root or lies below it. *)
Definition withinRoot (env : Collaborators) (fs : FileSystem) (name : string) : bool :=
  match realpath fs (templatesRoot env), realpath fs (candidate env name) with
  | Some realRoot, Some realCandidate => Path.isPrefix realRoot realCandidate
  | _, _ => false
  end.

Definition manifestOf (realCandidate : path) : path :=
  Path.join realCandidate "package.json".

(** The manifest of the candidate of [name] exists and cannot be parsed. *)
Definition manifestUnparseable (env : Collaborators) (fs : FileSystem) (name : string) : bool :=
  match realpath fs (candidate env name) with
  | Some realCandidate =>
      exists_ fs (manifestOf realCandidate)
      && match readJson fs (manifestOf realCandidate) with
         | None => true
         | Some _ => false
         end
  | None => false
  end.

(** The trimmed, lower-cased form of a raw string is off the allow-list;
    a raw value that is no string is off it too. *)
Definition offAllowList (t : JsValue) : bool :=
  match t with
  | JsStr s => negb (includes AVAILABLE_TEMPLATES (normalize s))
  | _ => true
  end.

(** The template after [template = template || answers.template]. *)
Definition chosenTemplate (template : JsValue) (picked : string) : JsValue :=
  jsOr template (if asksTemplate template then JsStr picked else JsUndefined).

(** The warning printed when validation changed the template. *)
Definition fallbackWarning (final : string) (template : JsValue) : list Event :=
  if strictNeqStr final template then [Log (InvalidTemplate template)] else [].

(** The coordinate the allow-list variant fetches for a template,
    [`fraanlol/template-react-${template}`]. *)
Definition coordinateOf (template : string) : string :=
  "fraanlol/template-react-" ++ template.

(** What the rollback prints last. *)
Definition errorReport (err : JsError) : list Event :=
  Log (ErrorDetails (message err))
  :: (if errCode err =? "COULD_NOT_DOWNLOAD" then [Log CheckConnection] else []).

(** What the outer [catch] of both variants prints. *)
Definition promptReport (error : JsError) : Event :=
  Log (if isTtyError error then PromptNotRendered
       else SomethingWentWrong (message error)).

(** The template the allow-list variant ends with. *)
Definition allowFinal (template : JsValue) (picked : string) : string :=
  AllowList.validateTemplate (chosenTemplate template picked).

(** The events of a run of the allow-list variant up to the first check of
    the guard. *)
Definition allowPreamble (env : Collaborators) (projectName template : JsValue)
           (picked name : string) : list Event :=
  (Asked (negb (truthy projectName)) (asksTemplate template)
   :: fallbackWarning (allowFinal template picked) (chosenTemplate template picked)
   ++ [Log (Creating (JsStr name) (allowFinal template picked));
       Exists (destination env name)])%list.

(** The template the confinement variant ends with, and what its
    validation reads and prints. *)
Definition confFinal (env : Collaborators) (template : JsValue) (fs : FileSystem) : string :=
  match outcome (Confinement.validateTemplate env template fs) with
  | Return v => v
  | _ => "base"
  end.

Definition confReads (env : Collaborators) (template : JsValue) (fs : FileSystem) : list Event :=
  events (Confinement.validateTemplate env template fs).

(** The events of a run of the confinement variant up to the first check
    of the destination. *)
Definition confPreamble (env : Collaborators) (projectName template : JsValue)
           (fs : FileSystem) (typed picked name : string) : list Event :=
  (Asked (negb (truthy projectName)) (asksTemplate template)
   :: Log (ShowAnswers
             (if negb (truthy projectName) then JsStr typed else JsUndefined)
             (if asksTemplate template then JsStr picked else JsUndefined))
   :: confReads env template fs
   ++ fallbackWarning (confFinal env template fs) template
   ++ [Log (Creating (JsStr name) (confFinal env template fs));
       Exists (destination env name)])%list.

Definition isLog (e : Event) : bool :=
  match e with Log _ => true | _ => false end.

(** The lifecycle hooks a parsed manifest declares: the keys of
    [lifecycleKeys] that are own properties of its [scripts]. *)
Definition declaredHooks (j : Json) : list string :=
  match (if jsonTruthy j then getScripts j else None) with
  | Some scripts =>
      if jsonTruthy scripts
      then filter (hasOwnProperty scripts) Confinement.lifecycleKeys
      else []
  | None => []
  end.

(** What the manifest scan prints for a parsed manifest. *)
Definition hookWarning (name : string) (j : Json) : list Event :=
  match declaredHooks j with
  | [] => []
  | found => [Log (LifecycleWarning name found)]
  end.

(** The events of a run of the allow-list variant in which [path.resolve]
    rejects the project name [v]. *)
Definition allowNameless (projectName template : JsValue) (picked : string)
           (v : JsValue) : list Event :=
  (Asked (negb (truthy projectName)) (asksTemplate template)
   :: fallbackWarning (allowFinal template picked) (chosenTemplate template picked)
   ++ [Log (Creating v (allowFinal template picked));
       promptReport (typeError "The paths argument must be of type string")])%list.

(** The events of a run of the confinement variant in which [path.resolve]
    rejects the project name [v]. *)
Definition confNameless (env : Collaborators) (projectName template : JsValue)
           (fs : FileSystem) (typed picked : string) (v : JsValue) : list Event :=
  (Asked (negb (truthy projectName)) (asksTemplate template)
   :: Log (ShowAnswers
             (if negb (truthy projectName) then JsStr typed else JsUndefined)
             (if asksTemplate template then JsStr picked else JsUndefined))
   :: confReads env template fs
   ++ fallbackWarning (confFinal env template fs) template
   ++ [Log (Creating v (confFinal env template fs));
       promptReport (typeError "The paths argument must be of type string")])%list.

Definition isSucceed (e : Event) : bool :=
  match e with Spin SpinSucceed => true | _ => false end.

Definition isMissing (e : Event) : bool :=
  match e with Log (TemplateMissing _) => true | _ => false end.

(** ** The runs of the allow-list variant, by cases

    What the rollback does to the filesystem [fs'] that a failed fetch left:
    the events it adds and the filesystem after it. *)
Inductive AllowCleanup (env : Collaborators) (fs' : FileSystem) (name : string) :
  list Event -> FileSystem -> Prop :=
| CleanupNone :
    exists_ fs' (destination env name) = false ->
    AllowCleanup env fs' name [] fs'
| CleanupDone :
    exists_ fs' (destination env name) = true ->
    remove env (destination env name) fs' = Removed ->
    AllowCleanup env fs' name
      [Remove (destination env name); Log CleanedUp]
      (removeTree (destination env name) fs')
| CleanupStuck err' fs'' :
    exists_ fs' (destination env name) = true ->
    remove env (destination env name) fs' = RemoveFailed err' fs'' ->
    AllowCleanup env fs' name
      [Remove (destination env name); Log (CleanupWarning (JsStr name))] fs''.

(** What a run does after its preamble: the events, how it ends and the
    filesystem it leaves. *)
Inductive AllowTail (env : Collaborators) (template : JsValue) (fs : FileSystem)
          (picked name : string) : list Event -> Outcome unit -> FileSystem -> Prop :=
| TailExists :
    exists_ fs (destination env name) = true ->
    AllowTail env template fs picked name
      [Log (DirectoryExists (JsStr name))] (Exit 1) fs
| TailNotWritable :
    exists_ fs (destination env name) = false ->
    writable fs (Path.dirname (destination env name)) = false ->
    AllowTail env template fs picked name
      [Access (Path.dirname (destination env name));
       Log (CannotWrite (Path.dirname (destination env name)))] (Exit 1) fs
| TailCloned fs' :
    exists_ fs (destination env name) = false ->
    writable fs (Path.dirname (destination env name)) = true ->
    clone env (coordinateOf (allowFinal template picked)) (destination env name) fs
    = Cloned fs' ->
    AllowTail env template fs picked name
      [Access (Path.dirname (destination env name)); Spin SpinStart;
       Fetch (coordinateOf (allowFinal template picked)) (destination env name);
       Spin SpinSucceed; Log (Created (JsStr name)); Log (NextSteps (JsStr name))]
      (Return tt) fs'
| TailFailed err fs' cleanup after :
    exists_ fs (destination env name) = false ->
    writable fs (Path.dirname (destination env name)) = true ->
    clone env (coordinateOf (allowFinal template picked)) (destination env name) fs
    = CloneFailed err fs' ->
    AllowCleanup env fs' name cleanup after ->
    AllowTail env template fs picked name
      ([Access (Path.dirname (destination env name)); Spin SpinStart;
        Fetch (coordinateOf (allowFinal template picked)) (destination env name);
        Spin SpinFail; Exists (destination env name)]
       ++ cleanup ++ errorReport err)%list
      (Exit 1) after.

Inductive AllowRun (env : Collaborators) (projectName template : JsValue)
          (fs : FileSystem) : Result unit -> Prop :=
| AllowRejected error :
    prompt env (negb (truthy projectName)) (asksTemplate template) = PromptRejected error ->
    AllowRun env projectName template fs
      (mkResult (Exit 1) fs
         [Asked (negb (truthy projectName)) (asksTemplate template); promptReport error])
| AllowNamelessRun typed picked :
    prompt env (negb (truthy projectName)) (asksTemplate template) = Answered typed picked ->
    isString (projectNameOf projectName typed) = false ->
    AllowRun env projectName template fs
      (mkResult (Exit 1) fs
         (allowNameless projectName template picked (projectNameOf projectName typed)))
| AllowGuarded typed picked name tail code after :
    prompt env (negb (truthy projectName)) (asksTemplate template) = Answered typed picked ->
    projectNameOf projectName typed = JsStr name ->
    AllowTail env template fs picked name tail code after ->
    AllowRun env projectName template fs
      (mkResult code after
         (allowPreamble env projectName template picked name ++ tail)%list).

(** ** The runs of the confinement variant, by cases *)
Inductive ConfTail (env : Collaborators) (template : JsValue) (fs : FileSystem)
          (name : string) : list Event -> Outcome unit -> FileSystem -> Prop :=
| ConfExists :
    exists_ fs (destination env name) = true ->
    ConfTail env template fs name
      [Log (DirectoryExists (JsStr name))] (Exit 1) fs
| ConfMissing :
    exists_ fs (destination env name) = false ->
    exists_ fs (candidate env (confFinal env template fs)) = false ->
    ConfTail env template fs name
      [Exists (candidate env (confFinal env template fs));
       Log (TemplateMissing (confFinal env template fs))] (Exit 1) fs
| ConfCloned fs' :
    exists_ fs (destination env name) = false ->
    exists_ fs (candidate env (confFinal env template fs)) = true ->
    clone env "fraanlol/template-base" (destination env name) fs = Cloned fs' ->
    ConfTail env template fs name
      [Exists (candidate env (confFinal env template fs));
       Log (ShowPaths (destination env name)
                      (candidate env (confFinal env template fs)));
       Spin SpinStart;
       Fetch "fraanlol/template-base" (destination env name);
       Spin SpinSucceed] (Return tt) fs'
| ConfFailed err fs' :
    exists_ fs (destination env name) = false ->
    exists_ fs (candidate env (confFinal env template fs)) = true ->
    clone env "fraanlol/template-base" (destination env name) fs = CloneFailed err fs' ->
    ConfTail env template fs name
      [Exists (candidate env (confFinal env template fs));
       Log (ShowPaths (destination env name)
                      (candidate env (confFinal env template fs)));
       Spin SpinStart;
       Fetch "fraanlol/template-base" (destination env name);
       Spin SpinFail; Log (ShowError err)] (Exit 1) fs'.

Inductive ConfRun (env : Collaborators) (projectName template : JsValue)
          (fs : FileSystem) : Result unit -> Prop :=
| ConfRejected error :
    prompt env (negb (truthy projectName)) (asksTemplate template) = PromptRejected error ->
    ConfRun env projectName template fs
      (mkResult (Return tt) fs
         [Asked (negb (truthy projectName)) (asksTemplate template); promptReport error])
| ConfNamelessRun typed picked :
    prompt env (negb (truthy projectName)) (asksTemplate template) = Answered typed picked ->
    isString (projectNameOf projectName typed) = false ->
    ConfRun env projectName template fs
      (mkResult (Return tt) fs
         (confNameless env projectName template fs typed picked
                       (projectNameOf projectName typed)))
| ConfGuarded typed picked name tail code after :
    prompt env (negb (truthy projectName)) (asksTemplate template) = Answered typed picked ->
    projectNameOf projectName typed = JsStr name ->
    ConfTail env template fs name tail code after ->
    ConfRun env projectName template fs
      (mkResult code after
         (confPreamble env projectName template fs typed picked name ++ tail)%list).

Definition isFallbackWarning (e : Event) : bool :=
  match e with Log (InvalidTemplate _) => true | _ => false end.

(** ** A checkout to run on

    The tool lives in [/pkgs/cli]; the templates root [/pkgs] holds the
    directories [template-base] and [template-redux]; projects are created
    in [/work]. *)
Fixpoint pathEqb (p q : path) : bool :=
  match p, q with
  | [], [] => true
  | x :: p', y :: q' => (x =? y) && pathEqb p' q'
  | _, _ => false
  end.

Definition memPath (p : path) (ps : list path) : bool := existsb (pathEqb p) ps.

Definition checkoutDirs : list path :=
  [ []; ["pkgs"]; ["pkgs"; "cli"]; ["pkgs"; "template-base"];
    ["pkgs"; "template-redux"]; ["work"] ].

(** A filesystem of plain directories [dirs], those of [open] writable. *)
Definition plainFs (dirs open : list path) : FileSystem :=
  {| realpath p := if memPath p dirs then Some p else None;
     exists_ p := memPath p dirs;
     isDirectory p := if memPath p dirs then Some true else None;
     readJson _ := None;
     writable p := memPath p open |}.

Definition checkout : FileSystem := plainFs checkoutDirs [["work"]].

(** The checkout with a read-only working directory. *)
Definition lockedCheckout : FileSystem := plainFs checkoutDirs [].

(** The checkout without [template-redux]. *)
Definition bareCheckout : FileSystem :=
  plainFs [ []; ["pkgs"]; ["pkgs"; "cli"]; ["pkgs"; "template-base"]; ["work"] ]
          [["work"]].

(** The checkout where [/pkgs/template-loop] is a link to [/pkgs] itself. *)
Definition loopCheckout : FileSystem :=
  {| realpath p := if pathEqb p ["pkgs"; "template-loop"] then Some ["pkgs"]
                   else realpath checkout p;
     exists_ p := pathEqb p ["pkgs"; "template-loop"] || exists_ checkout p;
     isDirectory p := if pathEqb p ["pkgs"; "template-loop"] then Some true
                      else isDirectory checkout p;
     readJson := readJson checkout;
     writable := writable checkout |}.

(** The checkout where [template-redux] has a manifest that is no JSON. *)
Definition brokenManifestCheckout : FileSystem :=
  {| realpath := realpath checkout;
     exists_ p := pathEqb p ["pkgs"; "template-redux"; "package.json"]
                  || exists_ checkout p;
     isDirectory := isDirectory checkout;
     readJson := readJson checkout;
     writable := writable checkout |}.

(** The checkout where [/pkgs/template-base] is a link to [/etc], outside
    the templates root. *)
Definition strayCheckout : FileSystem :=
  {| realpath p := if pathEqb p ["pkgs"; "template-base"] then Some ["etc"]
                   else realpath checkout p;
     exists_ p := pathEqb p ["etc"] || exists_ checkout p;
     isDirectory p := if pathEqb p ["etc"] then Some true
                      else isDirectory checkout p;
     readJson := readJson checkout;
     writable := writable checkout |}.

(** The checkout where [template-base] has a manifest that is no JSON. *)
Definition brokenBaseCheckout : FileSystem :=
  {| realpath := realpath checkout;
     exists_ p := pathEqb p ["pkgs"; "template-base"; "package.json"]
                  || exists_ checkout p;
     isDirectory := isDirectory checkout;
     readJson := readJson checkout;
     writable := writable checkout |}.

(** The checkout where the manifest of [template-redux] declares the
    scripts [dev], [postinstall] and [prepare]. *)
Definition scriptedCheckout : FileSystem :=
  {| realpath := realpath checkout;
     exists_ p := pathEqb p ["pkgs"; "template-redux"; "package.json"]
                  || exists_ checkout p;
     isDirectory := isDirectory checkout;
     readJson p :=
       if pathEqb p ["pkgs"; "template-redux"; "package.json"]
       then Some (JsonObject
                    [("name", JsonString "template-redux");
                     ("scripts",
                      JsonObject [("dev", JsonString "vite");
                                  ("postinstall", JsonString "node setup.js");
                                  ("prepare", JsonString "husky")])])
       else None;
     writable := writable checkout |}.

(** A filesystem in which [p] has come to exist (a fetch wrote there). *)
Definition withEntry (p : path) (fs : FileSystem) : FileSystem :=
  {| realpath q := if pathEqb q p then Some p else realpath fs q;
     exists_ q := pathEqb q p || exists_ fs q;
     isDirectory q := if pathEqb q p then Some true else isDirectory fs q;
     readJson := readJson fs;
     writable := writable fs |}.

(** A checkout that holds no template at all. *)
Definition emptyCheckout : FileSystem :=
  plainFs [ []; ["pkgs"]; ["pkgs"; "cli"]; ["work"] ] [["work"]].

(** The prompt cannot be rendered (no terminal). *)
Definition ttyEnv : Collaborators :=
  {| cwd := ["work"];
     dirname := ["pkgs"; "cli"];
     prompt _ _ := PromptRejected (mkError "no tty" "" true);
     clone _ dest fs := Cloned (withEntry dest fs);
     remove _ _ := Removed |}.

Definition networkError : JsError :=
  mkError "could not download" "COULD_NOT_DOWNLOAD" false.

Definition busyError : JsError := mkError "resource busy" "EBUSY" false.

(** The user types [typed] and picks [picked]; the fetch succeeds. *)
Definition onlineEnv (typed picked : string) : Collaborators :=
  {| cwd := ["work"];
     dirname := ["pkgs"; "cli"];
     prompt _ _ := Answered typed picked;
     clone _ dest fs := Cloned (withEntry dest fs);
     remove _ _ := Removed |}.

(** The fetch fails after it began to write the destination; [removal]
    is what [fs.remove] does then. *)
Definition offlineEnv (typed picked : string) (removal : RemoveReply) : Collaborators :=
  {| cwd := ["work"];
     dirname := ["pkgs"; "cli"];
     prompt _ _ := Answered typed picked;
     clone _ dest fs := CloneFailed networkError (withEntry dest fs);
     remove _ _ := removal |}.

(** ** Strings of the two character classes *)

Example trim_pads : trim (String "009" "  My-App " ++ String "160" "") = "My-App".
Proof. reflexivity. Qed.

Example trim_keeps_inner : trim " a b " = "a b".
Proof. reflexivity. Qed.

Example normalize_mixed : normalize "  ReDuX " = "redux".
Proof. reflexivity. Qed.

Example resolve_traversal : Path.resolve ["work"] "../../etc" = ["etc"].
Proof. reflexivity. Qed.

Example relative_outside :
  Path.relative ["pkgs"] ["etc"; "passwd"] = "../etc/passwd".
Proof. reflexivity. Qed.

Example lifecycle_scripts_warned :
  Confinement.validateTemplate (onlineEnv "app" "base") (JsStr "Redux") scriptedCheckout
  = mkResult (Return "redux") scriptedCheckout
      [Realpath ["pkgs"]; Realpath ["pkgs"; "template-redux"];
       Exists ["pkgs"; "template-redux"]; Stat ["pkgs"; "template-redux"];
       Exists ["pkgs"; "template-redux"; "package.json"];
       ReadJson ["pkgs"; "template-redux"; "package.json"];
       Log (LifecycleWarning "redux" ["postinstall"; "prepare"])].
Proof. reflexivity. Qed.

Example allow_traversal : AllowList.validateTemplate (JsStr "../../etc") = "base".
Proof. reflexivity. Qed.

Ltac each_char c :=
  destruct c as [[] [] [] [] [] [] [] []]; cbv; try reflexivity; try discriminate.

Lemma templateChar_plain (c : ascii) :
  templateChar c = true ->
  isWhiteSpace c = false /\ lowerChar c = c /\ Ascii.eqb c "/" = false.
Proof. each_char c; intros _; repeat split. Qed.

Lemma projectChar_plain (c : ascii) :
  projectChar c = true -> isWhiteSpace c = false.
Proof. each_char c. Qed.

Lemma trimEnd_plain (s : string) :
  allChars (fun c => negb (isWhiteSpace c)) s = true -> trimEnd s = s.
Proof.
  induction s as [|c s IH]; simpl; [reflexivity|].
  intros H. apply andb_true_iff in H as [Hc Hs].
  rewrite (IH Hs). apply negb_true_iff in Hc. now rewrite Hc.
Qed.

Lemma trim_plain (s : string) :
  allChars (fun c => negb (isWhiteSpace c)) s = true -> trim s = s.
Proof.
  intros H. unfold trim.
  assert (trimStart s = s) as ->.
  { destruct s as [|c s]; simpl in *; [reflexivity|].
    apply andb_true_iff in H as [Hc _]. apply negb_true_iff in Hc. now rewrite Hc. }
  now apply trimEnd_plain.
Qed.

Lemma allChars_impl (p q : ascii -> bool) (s : string) :
  (forall c, p c = true -> q c = true) ->
  allChars p s = true -> allChars q s = true.
Proof.
  intros Hpq. induction s as [|c s IH]; simpl; [reflexivity|].
  intros H. apply andb_true_iff in H as [Hc Hs].
  now rewrite (Hpq c Hc), (IH Hs).
Qed.

Lemma toLowerCase_plain (s : string) :
  allChars templateChar s = true -> toLowerCase s = s.
Proof.
  induction s as [|c s IH]; simpl; [reflexivity|].
  intros H. apply andb_true_iff in H as [Hc Hs].
  unfold toLowerCase in *. simpl.
  destruct (templateChar_plain c Hc) as (_ & -> & _). now rewrite (IH Hs).
Qed.

Lemma templateNameRe_chars (v : string) :
  templateNameRe v = true -> isEmpty v = false /\ allChars templateChar v = true.
Proof.
  unfold templateNameRe, testClassPlus. intros H.
  apply andb_true_iff in H as [H1 H2]. apply negb_true_iff in H1. now split.
Qed.

(** A name of the template class is its own normal form. *)
Lemma normalize_plain (v : string) :
  templateNameRe v = true -> normalize v = v.
Proof.
  intros H. destruct (templateNameRe_chars v H) as [_ Hc].
  unfold normalize. rewrite trim_plain.
  - now apply toLowerCase_plain.
  - revert Hc. apply allChars_impl. intros c Hc.
    destruct (templateChar_plain c Hc) as (-> & _). reflexivity.
Qed.

(** ** Paths of template names *)

Lemma segments_plain (s : string) :
  allChars templateChar s = true -> Path.segments s = [s].
Proof.
  induction s as [|c s IH]; simpl; [reflexivity|].
  intros H. apply andb_true_iff in H as [Hc Hs].
  destruct (templateChar_plain c Hc) as (_ & _ & ->). now rewrite (IH Hs).
Qed.

(** [template-<v>] is one path segment: resolving it against a directory
    gives a child of that directory. *)
Lemma resolve_template (base : path) (v : string) :
  templateNameRe v = true ->
  Path.resolve base ("template-" ++ v) = Path.join base ("template-" ++ v).
Proof.
  intros H. destruct (templateNameRe_chars v H) as [_ Hc].
  unfold Path.resolve.
  assert (Path.segments ("template-" ++ v) = ["template-" ++ v]) as ->.
  { apply segments_plain. simpl. exact Hc. }
  reflexivity.
Qed.

Lemma join_dotdot (rest : list string) :
  startsWith (JsString.join "/" (".." :: rest)) ".." = true.
Proof. destruct rest; reflexivity. Qed.

(** A relative path that does not start with [..] leads downwards. *)
Lemma relative_inside (from to : path) :
  startsWith (Path.relative from to) ".." = false -> Path.isPrefix from to = true.
Proof.
  revert to. induction from as [|x from IH]; intros to H; [reflexivity|].
  unfold Path.relative in H.
  destruct to as [|y to]; cbn [Path.stripCommon] in H.
  - cbn [length repeat app] in H. rewrite join_dotdot in H. discriminate.
  - cbn [Path.isPrefix]. destruct (x =? y) eqn:E.
    + apply IH. exact H.
    + cbn [length repeat app] in H. rewrite join_dotdot in H. discriminate.
Qed.

Lemma isPrefix_refl (p : path) : Path.isPrefix p p = true.
Proof. induction p as [|x p IH]; simpl; [reflexivity|]. now rewrite String.eqb_refl. Qed.

Lemma removeTree_gone (p : path) (fs : FileSystem) :
  exists_ (removeTree p fs) p = false.
Proof. simpl. now rewrite isPrefix_refl. Qed.

(** ** Unfolding runs *)

Ltac run_cbn :=
  cbv beta iota zeta delta
      [bind tryCatch after emit ret exit throw log when existsSync access
       realpathSync statIsDirectory readJsonSync pathResolve inquirerPrompt
       degitClone fsRemove fst snd outcome events fsAfter];
  cbn [app negb].

(** ** The confinement variant's [validateTemplate] *)

Section ConfinementFacts.

Variable env : Collaborators.
Variable fs : FileSystem.

Lemma scanManifest_result (name : string) (p : path) :
  exists r evs,
    Confinement.scanManifest name p fs = mkResult (Return r) fs evs
    /\ forallb isQuiet evs = true
    /\ (r = None \/ r = Some "base")
    /\ (readJson fs p = None -> r = Some "base" /\ evs = [ReadJson p]).
Proof.
  unfold Confinement.scanManifest. run_cbn.
  destruct (readJson fs p) as [j|] eqn:Hj; run_cbn.
  - destruct (if jsonTruthy j then getScripts j else None) as [scripts|]; run_cbn.
    + destruct (jsonTruthy scripts); run_cbn.
      * destruct (negb _); run_cbn;
          eexists _, _; repeat split; (reflexivity || (now left) || discriminate).
      * eexists _, _; repeat split; (reflexivity || (now left) || discriminate).
    + eexists _, _; repeat split; (reflexivity || (now left) || discriminate).
  - eexists _, _; repeat split; try reflexivity; now right.
Qed.

Lemma confine_result (name : string) :
  exists o evs,
    Confinement.confine env name fs = mkResult o fs evs
    /\ forallb isQuiet evs = true
    /\ match o with
       | Return (Some v) => v = "base"
       | Return None =>
           failsConfinement env fs name = false
           /\ manifestUnparseable env fs name = false
       | Throw _ => failsConfinement env fs name = true
       | Exit _ => False
       end.
Proof.
  unfold Confinement.confine, failsConfinement, manifestUnparseable,
    candidate, manifestOf.
  unfold templatesRoot. run_cbn.
  destruct (realpath fs (Path.resolve (dirname env) "..")) as [rr|] eqn:Hrr; run_cbn;
    [|eexists _, _; repeat split; reflexivity].
  destruct (realpath fs (Path.resolve (Path.resolve (dirname env) "..") _))
    as [rc|] eqn:Hrc; run_cbn;
    [|eexists _, _; repeat split; reflexivity].
  destruct (startsWith (Path.relative rr rc) "..") eqn:Hrel; cbn [orb];
    [eexists _, _; repeat split; reflexivity|].
  destruct (Path.isAbsolute _ && _) eqn:Habs;
    [eexists _, _; repeat split; reflexivity|].
  destruct (exists_ fs rc) eqn:Hex; cbn [negb orb]; run_cbn;
    [|eexists _, _; repeat split; reflexivity].
  destruct (isDirectory fs rc) as [[|]|] eqn:Hdir; cbn [negb orb]; run_cbn;
    [|eexists _, _; repeat split; reflexivity..].
  destruct (exists_ fs (Path.join rc "package.json")) eqn:Hman; cbn [andb]; run_cbn.
  - destruct (scanManifest_result name (Path.join rc "package.json"))
      as (r & evs & Hscan & Hquiet & Hr & Hbad).
    rewrite Hscan. run_cbn.
    eexists _, _. split; [reflexivity|]. split; [exact Hquiet|].
    destruct Hr as [-> | ->]; [|reflexivity].
    split; [reflexivity|].
    destruct (readJson fs (Path.join rc "package.json")); [reflexivity|].
    destruct (Hbad eq_refl) as [Hnone _]. discriminate.
  - eexists _, _; repeat split; reflexivity.
Qed.

(** The confinement variant's [validateTemplate] always returns; it leaves
    the filesystem as it was; what it returns is ["base"] or the normal
    form of a string that passed every check. *)
Lemma validateTemplate_result (t : JsValue) :
  exists v evs,
    Confinement.validateTemplate env t fs = mkResult (Return v) fs evs
    /\ forallb isQuiet evs = true
    /\ (v = "base"
        \/ exists s, t = JsStr s /\ v = normalize s /\ templateNameRe v = true
                     /\ failsConfinement env fs v = false
                     /\ manifestUnparseable env fs v = false).
Proof.
  unfold Confinement.validateTemplate.
  destruct t as [| |b|z|s|]; try (exists "base", []; repeat split; now left).
  destruct (negb (truthy (JsStr s))); [exists "base", []; repeat split; now left|].
  destruct (templateNameRe (normalize s)) eqn:Hre; cbn [negb];
    [|exists "base", []; repeat split; now left].
  destruct (confine_result (normalize s)) as (o & evs & Hrun & Hquiet & Ho).
  run_cbn. rewrite Hrun.
  destruct o as [[v|]|e|c]; run_cbn.
  - subst v. eexists _, _. split; [reflexivity|]. rewrite app_nil_r. split; [exact Hquiet|now left].
  - eexists _, _. split; [reflexivity|]. rewrite app_nil_r. split; [exact Hquiet|].
    right. exists s. destruct Ho as [Hc Hm]. now repeat split.
  - eexists _, _. split; [reflexivity|]. rewrite !app_nil_r. split; [exact Hquiet|now left].
  - destruct Ho.
Qed.

End ConfinementFacts.

(** ** The allow-list variant's [validateTemplate] *)

Lemma allow_validateTemplate_cases (t : JsValue) :
  AllowList.validateTemplate t = "base" \/ AllowList.validateTemplate t = "redux".
Proof.
  unfold AllowList.validateTemplate.
  destruct t as [| |b|z|s|]; try now left.
  destruct (negb (truthy (JsStr s))); [now left|].
  destruct (negb (templateNameRe (normalize s))); [now left|].
  unfold includes, AVAILABLE_TEMPLATES. cbn [existsb].
  destruct (normalize s =? "base") eqn:E1.
  - apply String.eqb_eq in E1. now left.
  - destruct (normalize s =? "redux") eqn:E2.
    + apply String.eqb_eq in E2. now right.
    + now left.
Qed.

Lemma allow_validateTemplate_off (t : JsValue) :
  offAllowList t = true -> AllowList.validateTemplate t = "base".
Proof.
  unfold AllowList.validateTemplate, offAllowList.
  destruct t as [| |b|z|s|]; try reflexivity.
  intros ->. now destruct (negb (truthy (JsStr s))), (negb (templateNameRe (normalize s))).
Qed.


(** ** Runs of the allow-list variant's [createProject] *)

Lemma allow_run_rejected (env : Collaborators) (projectName template : JsValue)
      (fs : FileSystem) (error : JsError) :
  prompt env (negb (truthy projectName)) (asksTemplate template) = PromptRejected error ->
  AllowList.createProject env projectName template fs
  = mkResult (Exit 1) fs
      [Asked (negb (truthy projectName)) (asksTemplate template); promptReport error].
Proof.
  intros Hp. unfold AllowList.createProject, AllowList.attempt, promptReport.
  unfold asksTemplate in *. run_cbn. rewrite Hp. run_cbn.
  destruct (isTtyError error); reflexivity.
Qed.

Section AllowListRuns.

Variable env : Collaborators.
Variables projectName template : JsValue.
Variable fs : FileSystem.
Variables typed picked : string.

Hypothesis Hprompt :
  prompt env (negb (truthy projectName)) (asksTemplate template) = Answered typed picked.

Ltac allow_start Hname :=
  unfold AllowList.createProject, AllowList.attempt, AllowList.rollBack,
    allowPreamble, errorReport, fallbackWarning, allowFinal, destination,
    chosenTemplate, coordinateOf, promptReport in *;
  unfold asksTemplate, projectNameOf in *;
  run_cbn; rewrite Hprompt; run_cbn;
  match goal with
  | |- context [strictNeqStr ?a ?b] => destruct (strictNeqStr a b)
  end; run_cbn; rewrite ?Hname; run_cbn.

(** [path.resolve] throws when the project name is no string; the outer
    [catch] reports it. *)
Lemma allow_run_nameless :
  isString (projectNameOf projectName typed) = false ->
  exists evs,
    AllowList.createProject env projectName template fs = mkResult (Exit 1) fs evs
    /\ filter isFetch evs = [] /\ filter isRemove evs = [].
Proof.
  intros Hn.
  allow_start Hn;
    destruct (jsOr projectName _); try discriminate Hn; run_cbn;
    eexists; repeat split; reflexivity.
Qed.

Variable name : string.
Hypothesis Hname : projectNameOf projectName typed = JsStr name.

Lemma allow_run_exists :
  exists_ fs (destination env name) = true ->
  AllowList.createProject env projectName template fs
  = mkResult (Exit 1) fs
      (allowPreamble env projectName template picked name
       ++ [Log (DirectoryExists (JsStr name))]).
Proof. intros He. allow_start Hname; rewrite He; reflexivity. Qed.

Lemma allow_run_not_writable :
  exists_ fs (destination env name) = false ->
  writable fs (Path.dirname (destination env name)) = false ->
  AllowList.createProject env projectName template fs
  = mkResult (Exit 1) fs
      (allowPreamble env projectName template picked name
       ++ [Access (Path.dirname (destination env name));
           Log (CannotWrite (Path.dirname (destination env name)))]).
Proof. intros He Hw. allow_start Hname; rewrite He; run_cbn; rewrite Hw; reflexivity. Qed.

Lemma allow_run_cloned (fs' : FileSystem) :
  exists_ fs (destination env name) = false ->
  writable fs (Path.dirname (destination env name)) = true ->
  clone env (coordinateOf (allowFinal template picked)) (destination env name) fs
  = Cloned fs' ->
  AllowList.createProject env projectName template fs
  = mkResult (Return tt) fs'
      (allowPreamble env projectName template picked name
       ++ [Access (Path.dirname (destination env name)); Spin SpinStart;
           Fetch (coordinateOf (allowFinal template picked)) (destination env name);
           Spin SpinSucceed;
           Log (Created (JsStr name)); Log (NextSteps (JsStr name))]).
Proof.
  intros He Hw Hc.
  allow_start Hname; rewrite He; run_cbn; rewrite Hw; run_cbn; rewrite Hc; reflexivity.
Qed.

Lemma allow_run_failed_clean (err : JsError) (fs' : FileSystem) :
  exists_ fs (destination env name) = false ->
  writable fs (Path.dirname (destination env name)) = true ->
  clone env (coordinateOf (allowFinal template picked)) (destination env name) fs
  = CloneFailed err fs' ->
  exists_ fs' (destination env name) = false ->
  AllowList.createProject env projectName template fs
  = mkResult (Exit 1) fs'
      (allowPreamble env projectName template picked name
       ++ [Access (Path.dirname (destination env name)); Spin SpinStart;
           Fetch (coordinateOf (allowFinal template picked)) (destination env name);
           Spin SpinFail; Exists (destination env name)]
       ++ errorReport err).
Proof.
  intros He Hw Hc He'.
  allow_start Hname; rewrite He; run_cbn; rewrite Hw; run_cbn; rewrite Hc; run_cbn;
    rewrite He'; run_cbn; destruct (errCode err =? _); reflexivity.
Qed.

Lemma allow_run_failed_removed (err : JsError) (fs' : FileSystem) :
  exists_ fs (destination env name) = false ->
  writable fs (Path.dirname (destination env name)) = true ->
  clone env (coordinateOf (allowFinal template picked)) (destination env name) fs
  = CloneFailed err fs' ->
  exists_ fs' (destination env name) = true ->
  remove env (destination env name) fs' = Removed ->
  AllowList.createProject env projectName template fs
  = mkResult (Exit 1) (removeTree (destination env name) fs')
      (allowPreamble env projectName template picked name
       ++ [Access (Path.dirname (destination env name)); Spin SpinStart;
           Fetch (coordinateOf (allowFinal template picked)) (destination env name);
           Spin SpinFail; Exists (destination env name);
           Remove (destination env name); Log CleanedUp]
       ++ errorReport err).
Proof.
  intros He Hw Hc He' Hr.
  allow_start Hname; rewrite He; run_cbn; rewrite Hw; run_cbn; rewrite Hc; run_cbn;
    rewrite He'; run_cbn; rewrite Hr; run_cbn;
    destruct (errCode err =? _); reflexivity.
Qed.

Lemma allow_run_failed_stuck (err err' : JsError) (fs' fs'' : FileSystem) :
  exists_ fs (destination env name) = false ->
  writable fs (Path.dirname (destination env name)) = true ->
  clone env (coordinateOf (allowFinal template picked)) (destination env name) fs
  = CloneFailed err fs' ->
  exists_ fs' (destination env name) = true ->
  remove env (destination env name) fs' = RemoveFailed err' fs'' ->
  AllowList.createProject env projectName template fs
  = mkResult (Exit 1) fs''
      (allowPreamble env projectName template picked name
       ++ [Access (Path.dirname (destination env name)); Spin SpinStart;
           Fetch (coordinateOf (allowFinal template picked)) (destination env name);
           Spin SpinFail; Exists (destination env name);
           Remove (destination env name); Log (CleanupWarning (JsStr name))]
       ++ errorReport err).
Proof.
  intros He Hw Hc He' Hr.
  allow_start Hname; rewrite He; run_cbn; rewrite Hw; run_cbn; rewrite Hc; run_cbn;
    rewrite He'; run_cbn; rewrite Hr; run_cbn;
    destruct (errCode err =? _); reflexivity.
Qed.

End AllowListRuns.

(** ** Runs of the confinement variant's [createProject] *)

Lemma conf_validate_eq (env : Collaborators) (template : JsValue) (fs : FileSystem) :
  Confinement.validateTemplate env template fs
  = mkResult (Return (confFinal env template fs)) fs (confReads env template fs).
Proof.
  unfold confFinal, confReads.
  destruct (validateTemplate_result env fs template) as (v & evs & -> & _).
  reflexivity.
Qed.

Lemma confReads_quiet (env : Collaborators) (template : JsValue) (fs : FileSystem) :
  forallb isQuiet (confReads env template fs) = true.
Proof.
  unfold confReads.
  destruct (validateTemplate_result env fs template) as (v & evs & -> & H & _).
  exact H.
Qed.

Lemma quiet_silent (l : list Event) :
  forallb isQuiet l = true ->
  filter isFetch l = [] /\ filter isRemove l = [] /\ filter isAccess l = [].
Proof.
  induction l as [|e l IH]; [now repeat split|].
  simpl. intros H. apply andb_true_iff in H as [He Hl].
  destruct (IH Hl) as (H1 & H2 & H3).
  destruct e; try discriminate He; simpl; now repeat split.
Qed.

Lemma confReads_no_fetch (env : Collaborators) (template : JsValue) (fs : FileSystem) :
  filter isFetch (confReads env template fs) = [].
Proof. apply quiet_silent, confReads_quiet. Qed.

Lemma confReads_no_remove (env : Collaborators) (template : JsValue) (fs : FileSystem) :
  filter isRemove (confReads env template fs) = [].
Proof. apply quiet_silent, confReads_quiet. Qed.

Lemma confReads_no_access (env : Collaborators) (template : JsValue) (fs : FileSystem) :
  filter isAccess (confReads env template fs) = [].
Proof. apply quiet_silent, confReads_quiet. Qed.

(** The prompt fails: the [.catch] handler prints and the program ends
    without [process.exit]. *)
Lemma conf_run_rejected (env : Collaborators) (projectName template : JsValue)
      (fs : FileSystem) (error : JsError) :
  prompt env (negb (truthy projectName)) (asksTemplate template) = PromptRejected error ->
  Confinement.createProject env projectName template fs
  = mkResult (Return tt) fs
      [Asked (negb (truthy projectName)) (asksTemplate template); promptReport error].
Proof.
  intros Hp. unfold Confinement.createProject, promptReport.
  unfold asksTemplate in *. run_cbn. rewrite Hp. run_cbn.
  destruct (isTtyError error); reflexivity.
Qed.

Section ConfinementRuns.

Variable env : Collaborators.
Variables projectName template : JsValue.
Variable fs : FileSystem.
Variables typed picked : string.

Hypothesis Hprompt :
  prompt env (negb (truthy projectName)) (asksTemplate template) = Answered typed picked.

Ltac conf_start Hname :=
  unfold Confinement.createProject, Confinement.afterPrompt,
    confPreamble, fallbackWarning, destination, candidate, templatesRoot,
    promptReport in *;
  unfold asksTemplate, projectNameOf in *;
  run_cbn; rewrite Hprompt; run_cbn; rewrite conf_validate_eq; run_cbn;
  match goal with
  | |- context [strictNeqStr ?a ?b] => destruct (strictNeqStr a b)
  end; run_cbn; rewrite ?Hname; run_cbn.

Lemma conf_run_nameless :
  isString (projectNameOf projectName typed) = false ->
  exists evs,
    Confinement.createProject env projectName template fs = mkResult (Return tt) fs evs
    /\ filter isFetch evs = [] /\ filter isRemove evs = [].
Proof.
  intros Hn.
  conf_start Hn;
    destruct (jsOr projectName _); try discriminate Hn; run_cbn;
    destruct (isTtyError _); run_cbn;
    (eexists; split; [reflexivity|]; split;
     cbn [filter isFetch isRemove]; rewrite ?filter_app;
     [rewrite confReads_no_fetch|rewrite confReads_no_remove]; reflexivity).
Qed.

Variable name : string.
Hypothesis Hname : projectNameOf projectName typed = JsStr name.

Lemma conf_run_exists :
  exists_ fs (destination env name) = true ->
  Confinement.createProject env projectName template fs
  = mkResult (Exit 1) fs
      (confPreamble env projectName template fs typed picked name
       ++ [Log (DirectoryExists (JsStr name))]).
Proof.
  intros He. conf_start Hname; rewrite He; run_cbn;
    repeat (rewrite <- ?app_assoc; cbn [app]); reflexivity.
Qed.

Lemma conf_run_missing :
  exists_ fs (destination env name) = false ->
  exists_ fs (candidate env (confFinal env template fs)) = false ->
  Confinement.createProject env projectName template fs
  = mkResult (Exit 1) fs
      (confPreamble env projectName template fs typed picked name
       ++ [Exists (candidate env (confFinal env template fs));
           Log (TemplateMissing (confFinal env template fs))]).
Proof.
  intros He Ht. conf_start Hname; rewrite He; run_cbn; rewrite Ht; run_cbn;
    repeat (rewrite <- ?app_assoc; cbn [app]); reflexivity.
Qed.

Lemma conf_run_cloned (fs' : FileSystem) :
  exists_ fs (destination env name) = false ->
  exists_ fs (candidate env (confFinal env template fs)) = true ->
  clone env "fraanlol/template-base" (destination env name) fs = Cloned fs' ->
  Confinement.createProject env projectName template fs
  = mkResult (Return tt) fs'
      (confPreamble env projectName template fs typed picked name
       ++ [Exists (candidate env (confFinal env template fs));
           Log (ShowPaths (destination env name)
                          (candidate env (confFinal env template fs)));
           Spin SpinStart;
           Fetch "fraanlol/template-base" (destination env name);
           Spin SpinSucceed]).
Proof.
  intros He Ht Hc. conf_start Hname; rewrite He; run_cbn; rewrite Ht; run_cbn;
    rewrite Hc; run_cbn;
    repeat (rewrite <- ?app_assoc; cbn [app]); reflexivity.
Qed.

Lemma conf_run_failed (err : JsError) (fs' : FileSystem) :
  exists_ fs (destination env name) = false ->
  exists_ fs (candidate env (confFinal env template fs)) = true ->
  clone env "fraanlol/template-base" (destination env name) fs = CloneFailed err fs' ->
  Confinement.createProject env projectName template fs
  = mkResult (Exit 1) fs'
      (confPreamble env projectName template fs typed picked name
       ++ [Exists (candidate env (confFinal env template fs));
           Log (ShowPaths (destination env name)
                          (candidate env (confFinal env template fs)));
           Spin SpinStart;
           Fetch "fraanlol/template-base" (destination env name);
           Spin SpinFail; Log (ShowError err)]).
Proof.
  intros He Ht Hc. conf_start Hname; rewrite He; run_cbn; rewrite Ht; run_cbn;
    rewrite Hc; run_cbn;
    repeat (rewrite <- ?app_assoc; cbn [app]); reflexivity.
Qed.

End ConfinementRuns.

(** ** Template validation *)

Lemma conf_validate_cases (env : Collaborators) (fs : FileSystem) (t : JsValue) :
  confFinal env t fs = "base"
  \/ exists s, t = JsStr s /\ confFinal env t fs = normalize s
               /\ templateNameRe (normalize s) = true
               /\ failsConfinement env fs (normalize s) = false
               /\ manifestUnparseable env fs (normalize s) = false.
Proof.
  unfold confFinal.
  destruct (validateTemplate_result env fs t) as (v & evs & -> & _ & [-> | H]).
  - now left.
  - right. destruct H as (s & -> & -> & H1 & H2 & H3). exists s. now repeat split.
Qed.

Lemma conf_outcome (env : Collaborators) (fs : FileSystem) (t : JsValue) :
  outcome (Confinement.validateTemplate env t fs) = Return (confFinal env t fs).
Proof. now rewrite conf_validate_eq. Qed.

Lemma failsConfinement_within (env : Collaborators) (fs : FileSystem) (v : string) :
  failsConfinement env fs v = false -> withinRoot env fs v = true.
Proof.
  unfold failsConfinement, withinRoot.
  destruct (realpath fs (templatesRoot env)) as [rr|]; [|discriminate].
  destruct (realpath fs (candidate env v)) as [rc|]; [|discriminate].
  intros H. apply relative_inside.
  destruct (startsWith (Path.relative rr rc) ".."); [discriminate H|reflexivity].
Qed.

Lemma allow_validateTemplate_listed (t : JsValue) :
  includes AVAILABLE_TEMPLATES (AllowList.validateTemplate t) = true.
Proof. destruct (allow_validateTemplate_cases t) as [-> | ->]; reflexivity. Qed.

(** ["REDUX"] is not a member of the allow-list, yet the allow-list
    variant resolves it to ["redux"], not to the fallback; in the
    confinement variant a candidate whose real path is the templates root
    itself, no proper descendant of it, is returned as it is; and where
    [template-base] is a link that leaves the templates root, the unlisted
    name ["vue"] and ["base"] itself are resolved to ["base"], whose real
    path is outside the root, and the run goes on to the fetch. *)
Lemma raw_name_off_list_not_fallback :
  includes AVAILABLE_TEMPLATES "REDUX" = false
  /\ AllowList.validateTemplate (JsStr "REDUX") = "redux"
  /\ realpath loopCheckout (candidate (onlineEnv "app" "base") "loop")
     = realpath loopCheckout (templatesRoot (onlineEnv "app" "base"))
  /\ outcome (Confinement.validateTemplate (onlineEnv "app" "base")
                (JsStr "loop") loopCheckout) = Return "loop"
  /\ outcome (Confinement.validateTemplate (onlineEnv "app" "base")
                (JsStr "vue") strayCheckout) = Return "base"
  /\ outcome (Confinement.validateTemplate (onlineEnv "app" "base")
                (JsStr "base") strayCheckout) = Return "base"
  /\ realpath strayCheckout (candidate (onlineEnv "app" "base") "base") = Some ["etc"]
  /\ realpath strayCheckout (templatesRoot (onlineEnv "app" "base")) = Some ["pkgs"]
  /\ withinRoot (onlineEnv "app" "base") strayCheckout "base" = false
  /\ filter isFetch (events (Confinement.createProject (onlineEnv "app" "base")
                               JsUndefined (JsStr "vue") strayCheckout))
     = [Fetch "fraanlol/template-base" ["work"; "app"]].
Proof. repeat split; reflexivity. Qed.

(** C1, amended.  A raw value whose trimmed, lower-cased form is off the
    allow-list is resolved to ["base"] by the allow-list variant; a string
    whose normal form fails confinement (no real path, a relative path from
    the real root that starts with [..], a missing candidate or one that is
    no directory) is resolved to ["base"] by the confinement variant.
    Neither variant throws.  The allow-list variant only returns members of
    the list; the confinement variant only returns names of the class
    [[a-z0-9-]+], whose candidate is a child of the templates root, and the
    real path of the returned name is inside the real root whenever the
    name is not the fallback or the fallback's own candidate
    [template-base] resolves inside the root. *)
Theorem resolution_falls_back (env : Collaborators) (fs : FileSystem) (t : JsValue) :
  (offAllowList t = true -> AllowList.validateTemplate t = "base")
  /\ (forall s, t = JsStr s -> failsConfinement env fs (normalize s) = true ->
      outcome (Confinement.validateTemplate env t fs) = Return "base")
  /\ includes AVAILABLE_TEMPLATES (AllowList.validateTemplate t) = true
  /\ exists v,
       outcome (Confinement.validateTemplate env t fs) = Return v
       /\ templateNameRe v = true
       /\ candidate env v = Path.join (templatesRoot env) ("template-" ++ v)
       /\ (v <> "base" -> withinRoot env fs v = true)
       /\ (withinRoot env fs "base" = true -> withinRoot env fs v = true).
Proof.
  split; [apply allow_validateTemplate_off|].
  split; [|split; [apply allow_validateTemplate_listed|]].
  - intros s -> Hfail. rewrite conf_outcome.
    destruct (conf_validate_cases env fs (JsStr s)) as [-> | (s' & E & _ & _ & Hok & _)];
      [reflexivity|]. injection E as <-. congruence.
  - exists (confFinal env t fs). split; [apply conf_outcome|].
    assert (templateNameRe (confFinal env t fs) = true) as Hre.
    { destruct (conf_validate_cases env fs t) as [-> | (s & _ & -> & H & _)];
        [reflexivity|exact H]. }
    split; [exact Hre|]. split; [now apply resolve_template|].
    assert (confFinal env t fs <> "base" -> withinRoot env fs (confFinal env t fs) = true)
      as Hin.
    { intros Hv.
      destruct (conf_validate_cases env fs t) as [E | (s & _ & -> & _ & Hok & _)];
        [contradiction|]. now apply failsConfinement_within. }
    split; [exact Hin|]. intros Hbase.
    destruct (String.eqb_spec (confFinal env t fs) "base") as [-> | Hne];
      [exact Hbase|now apply Hin].
Qed.

Lemma resolution_falls_back_witness :
  AllowList.validateTemplate (JsStr " Vue ") = "base"
  /\ outcome (Confinement.validateTemplate (onlineEnv "app" "base")
                (JsStr " Vue ") checkout) = Return "base".
Proof.
  split.
  - apply (proj1 (resolution_falls_back (onlineEnv "app" "base") checkout (JsStr " Vue "))).
    reflexivity.
  - apply (proj1 (proj2 (resolution_falls_back (onlineEnv "app" "base") checkout
                           (JsStr " Vue "))) " Vue " eq_refl).
    reflexivity.
Defined.

(** The confinement variant's [validateTemplate] reads the filesystem and
    its result follows it: the same raw name gives ["redux"] while
    [template-redux] is there and ["base"] once it is gone. *)
Lemma validateTemplate_reads_filesystem :
  outcome (Confinement.validateTemplate (onlineEnv "app" "base")
             (JsStr "redux") checkout) = Return "redux"
  /\ outcome (Confinement.validateTemplate (onlineEnv "app" "base")
                (JsStr "redux") bareCheckout) = Return "base"
  /\ events (Confinement.validateTemplate (onlineEnv "app" "base")
               (JsStr "redux") checkout)
     = [Realpath ["pkgs"]; Realpath ["pkgs"; "template-redux"];
        Exists ["pkgs"; "template-redux"]; Stat ["pkgs"; "template-redux"];
        Exists ["pkgs"; "template-redux"; "package.json"]].
Proof. repeat split; reflexivity. Qed.

(** C9, amended.  The allow-list variant's [validateTemplate] is a function
    of the raw value alone, and validating its result again changes
    nothing.  The confinement variant's [validateTemplate] only reads the
    filesystem and prints: it leaves the filesystem as it found it, so a
    second run on the same raw value gives the same result. *)
Theorem validateTemplate_repeatable (env : Collaborators) (fs : FileSystem) (t : JsValue) :
  AllowList.validateTemplate (JsStr (AllowList.validateTemplate t))
  = AllowList.validateTemplate t
  /\ fsAfter (Confinement.validateTemplate env t fs) = fs
  /\ Confinement.validateTemplate env t (fsAfter (Confinement.validateTemplate env t fs))
     = Confinement.validateTemplate env t fs
  /\ forallb isQuiet (events (Confinement.validateTemplate env t fs)) = true.
Proof.
  split; [destruct (allow_validateTemplate_cases t) as [-> | ->]; reflexivity|].
  assert (fsAfter (Confinement.validateTemplate env t fs) = fs) as Hfs
      by now rewrite conf_validate_eq.
  split; [exact Hfs|]. split; [now rewrite Hfs|].
  apply confReads_quiet.
Qed.

(** ** Project-name validation *)

Lemma allow_validate_spec (input : string) :
  AllowList.validate input
  = if isEmpty (trim input) then Rejected "Project name is required"
    else if negb (projectNameRe (trim input))
    then Rejected "Project name can only contain letters, numbers, hyphens, and underscores"
    else if (50 <? String.length (trim input))%nat
    then Rejected "Project name must be 50 characters or less"
    else Accepted.
Proof.
  unfold AllowList.validate. destruct input as [|c input]; [reflexivity|].
  cbn [isEmpty orb]. reflexivity.
Qed.

Lemma projectName_plain (s : string) :
  projectNameRe s = true -> trim s = s /\ isEmpty s = false.
Proof.
  unfold projectNameRe, testClassPlus. intros H.
  apply andb_true_iff in H as [H1 H2]. apply negb_true_iff in H1.
  split; [|exact H1]. apply trim_plain. revert H2. apply allChars_impl.
  intros c Hc. now rewrite (projectChar_plain c Hc).
Qed.

(** The allow-list variant accepts [" my-app"], which has a space and is
    outside [^[a-zA-Z0-9_-]+$]; the confinement variant accepts a name with
    a space and a slash. *)
Lemma padded_name_accepted :
  projectNameRe " my-app" = false
  /\ AllowList.validate " my-app" = Accepted
  /\ projectNameRe "my app/x" = false
  /\ Confinement.validate "my app/x" = Accepted.
Proof. repeat split; reflexivity. Qed.

(** C5, amended.  Both variants accept every name of [^[a-zA-Z0-9_-]+$] of
    at most 50 characters.  The allow-list variant validates the trimmed
    input: it accepts exactly the inputs whose trimmed form is in that
    class and has at most 50 characters, and answers every other input
    with a message.  The confinement variant accepts exactly the inputs
    that are not blank. *)
Theorem project_name_validation (input : string) :
  (projectNameRe input = true -> (String.length input <= 50)%nat ->
   AllowList.validate input = Accepted /\ Confinement.validate input = Accepted)
  /\ (AllowList.validate input = Accepted
      <-> projectNameRe (trim input) = true /\ (String.length (trim input) <= 50)%nat)
  /\ (AllowList.validate input = Accepted
      \/ exists msg, AllowList.validate input = Rejected msg /\ msg <> "")
  /\ (Confinement.validate input = Accepted <-> trim input <> "").
Proof.
  rewrite allow_validate_spec. repeat split.
  - destruct (projectName_plain input H) as [-> ->].
    rewrite H. cbn [negb].
    destruct (Nat.ltb_spec 50 (String.length input)); [lia|reflexivity].
  - destruct (projectName_plain input H) as [Ht He].
    unfold Confinement.validate. now rewrite Ht, He.
  - destruct (isEmpty (trim input)); [discriminate|].
    destruct (projectNameRe (trim input)); [reflexivity|discriminate].
  - destruct (isEmpty (trim input)); [discriminate H|].
    destruct (projectNameRe (trim input)); [|discriminate H]. cbn [negb] in H.
    destruct (Nat.ltb_spec 50 (String.length (trim input))); [discriminate H|lia].
  - intros [Hre Hlen]. rewrite Hre. cbn [negb].
    destruct (projectName_plain _ Hre) as [_ He].
    assert (isEmpty (trim input) = false) as ->.
    { unfold projectNameRe, testClassPlus in Hre.
      apply andb_true_iff in Hre as [H1 _]. now apply negb_true_iff in H1. }
    destruct (Nat.ltb_spec 50 (String.length (trim input))); [lia|reflexivity].
  - destruct (isEmpty (trim input)); [right; eexists; split; [reflexivity|discriminate]|].
    destruct (negb (projectNameRe (trim input)));
      [right; eexists; split; [reflexivity|discriminate]|].
    destruct (50 <? String.length (trim input))%nat;
      [right; eexists; split; [reflexivity|discriminate]|now left].
  - unfold Confinement.validate. intros H E.
    destruct input as [|c input]; [discriminate H|].
    cbn [isEmpty orb] in H. rewrite E in H. discriminate H.
  - unfold Confinement.validate. intros H.
    destruct input as [|c input]; [now elim H|]. cbn [isEmpty orb].
    destruct (trim (String c input)); [now elim H|reflexivity].
Qed.

Lemma project_name_validation_witness :
  AllowList.validate "my-app_2" = Accepted /\ Confinement.validate "my-app_2" = Accepted.
Proof.
  apply (proj1 (project_name_validation "my-app_2")); [reflexivity|].
  apply Nat.leb_le. reflexivity.
Defined.

(** ** The guard, the fetch and the rollback *)

Lemma fallbackWarning_quiet (final : string) (template : JsValue) :
  forallb isQuiet (fallbackWarning final template) = true.
Proof. unfold fallbackWarning. now destruct (strictNeqStr final template). Qed.

Lemma allowPreamble_silent (env : Collaborators) (projectName template : JsValue)
      (picked name : string) :
  filter isFetch (allowPreamble env projectName template picked name) = []
  /\ filter isRemove (allowPreamble env projectName template picked name) = []
  /\ filter isAccess (allowPreamble env projectName template picked name) = [].
Proof.
  unfold allowPreamble, fallbackWarning.
  destruct (strictNeqStr _ _); now repeat split.
Qed.

Lemma confPreamble_silent (env : Collaborators) (projectName template : JsValue)
      (fs : FileSystem) (typed picked name : string) :
  filter isFetch (confPreamble env projectName template fs typed picked name) = []
  /\ filter isRemove (confPreamble env projectName template fs typed picked name) = []
  /\ filter isAccess (confPreamble env projectName template fs typed picked name) = [].
Proof.
  unfold confPreamble. cbn [filter isFetch isRemove isAccess].
  rewrite !filter_app, confReads_no_fetch, confReads_no_remove, confReads_no_access.
  unfold fallbackWarning. destruct (strictNeqStr _ _); now repeat split.
Qed.

Lemma errorReport_silent (err : JsError) :
  filter isFetch (errorReport err) = [] /\ filter isRemove (errorReport err) = [].
Proof. unfold errorReport. now destruct (errCode err =? _). Qed.

(** C3. A run that reaches the destination check with a destination that
    exists ends in [process.exit(1)]; it has not called the fetch and has
    left the filesystem as it was.  This holds in both variants. *)
Theorem existing_destination_aborts
        (env : Collaborators) (projectName template : JsValue) (fs : FileSystem)
        (typed picked name : string) :
  prompt env (negb (truthy projectName)) (asksTemplate template) = Answered typed picked ->
  projectNameOf projectName typed = JsStr name ->
  exists_ fs (destination env name) = true ->
  (exitStatus (AllowList.createProject env projectName template fs) = 1%Z
   /\ filter isFetch (events (AllowList.createProject env projectName template fs)) = []
   /\ fsAfter (AllowList.createProject env projectName template fs) = fs)
  /\ (exitStatus (Confinement.createProject env projectName template fs) = 1%Z
      /\ filter isFetch (events (Confinement.createProject env projectName template fs)) = []
      /\ fsAfter (Confinement.createProject env projectName template fs) = fs).
Proof.
  intros Hp Hn He. split.
  - rewrite (allow_run_exists env projectName template fs typed picked Hp name Hn He).
    repeat split. cbn [events]. rewrite filter_app.
    now rewrite (proj1 (allowPreamble_silent env projectName template picked name)).
  - rewrite (conf_run_exists env projectName template fs typed picked Hp name Hn He).
    repeat split. cbn [events]. rewrite filter_app.
    now rewrite (proj1 (confPreamble_silent env projectName template fs typed picked name)).
Qed.

Lemma existing_destination_aborts_witness :
  exists_ (withEntry ["work"; "app"] checkout) (destination (onlineEnv "app" "base") "app")
  = true
  /\ exitStatus (AllowList.createProject (onlineEnv "app" "base")
                   JsUndefined (JsStr "base") (withEntry ["work"; "app"] checkout)) = 1%Z
  /\ exitStatus (Confinement.createProject (onlineEnv "app" "base")
                   JsUndefined (JsStr "base") (withEntry ["work"; "app"] checkout)) = 1%Z.
Proof.
  split; [reflexivity|].
  pose proof (existing_destination_aborts (onlineEnv "app" "base")
                JsUndefined (JsStr "base") (withEntry ["work"; "app"] checkout)
                "app" "base" "app" eq_refl eq_refl eq_refl) as [[HB _] [HA _]].
  split; [exact HB|exact HA].
Defined.

Section Shapes.

Variable env : Collaborators.
Variables projectName template : JsValue.
Variable fs : FileSystem.

(** In the allow-list variant a run fetches at most once, and only after
    both checks of the guard passed, in this order. *)
Lemma allow_run_shape (typed picked name : string) :
  prompt env (negb (truthy projectName)) (asksTemplate template) = Answered typed picked ->
  projectNameOf projectName typed = JsStr name ->
  filter isFetch (events (AllowList.createProject env projectName template fs)) = []
  \/ (exists_ fs (destination env name) = false
      /\ writable fs (Path.dirname (destination env name)) = true
      /\ exists rest,
           events (AllowList.createProject env projectName template fs)
           = (allowPreamble env projectName template picked name
              ++ Access (Path.dirname (destination env name))
              :: Spin SpinStart
              :: Fetch (coordinateOf (allowFinal template picked)) (destination env name)
              :: rest)%list
           /\ filter isFetch rest = []).
Proof.
  intros Hp Hn.
  pose proof (allowPreamble_silent env projectName template picked name) as (HF & _ & _).
  destruct (exists_ fs (destination env name)) eqn:He.
  { left. rewrite (allow_run_exists _ _ _ _ _ _ Hp _ Hn He).
    cbn [events]. now rewrite filter_app, HF. }
  destruct (writable fs (Path.dirname (destination env name))) eqn:Hw.
  2:{ left. rewrite (allow_run_not_writable _ _ _ _ _ _ Hp _ Hn He Hw).
      cbn [events]. now rewrite filter_app, HF. }
  right. split; [reflexivity|]. split; [reflexivity|].
  destruct (clone env (coordinateOf (allowFinal template picked)) (destination env name) fs)
    as [fs'|err fs'] eqn:Hc.
  { rewrite (allow_run_cloned _ _ _ _ _ _ Hp _ Hn _ He Hw Hc).
    eexists. split; reflexivity. }
  destruct (exists_ fs' (destination env name)) eqn:He'.
  2:{ rewrite (allow_run_failed_clean _ _ _ _ _ _ Hp _ Hn _ _ He Hw Hc He').
      eexists. split; [reflexivity|]. cbn [filter isFetch].
      apply errorReport_silent. }
  destruct (remove env (destination env name) fs') as [|err' fs''] eqn:Hr.
  - rewrite (allow_run_failed_removed _ _ _ _ _ _ Hp _ Hn _ _ He Hw Hc He' Hr).
    eexists. split; [reflexivity|]. cbn [filter isFetch]. apply errorReport_silent.
  - rewrite (allow_run_failed_stuck _ _ _ _ _ _ Hp _ Hn _ _ _ _ He Hw Hc He' Hr).
    eexists. split; [reflexivity|]. cbn [filter isFetch]. apply errorReport_silent.
Qed.

(** In the confinement variant a run fetches at most once, after the checks
    that the destination is free and that the local template exists; it
    never tests write access and never removes anything. *)
Lemma conf_run_shape (typed picked name : string) :
  prompt env (negb (truthy projectName)) (asksTemplate template) = Answered typed picked ->
  projectNameOf projectName typed = JsStr name ->
  (filter isFetch (events (Confinement.createProject env projectName template fs)) = []
   \/ (exists_ fs (destination env name) = false
       /\ exists rest,
            events (Confinement.createProject env projectName template fs)
            = (confPreamble env projectName template fs typed picked name
               ++ Exists (candidate env (confFinal env template fs))
               :: Log (ShowPaths (destination env name)
                                 (candidate env (confFinal env template fs)))
               :: Spin SpinStart
               :: Fetch "fraanlol/template-base" (destination env name)
               :: rest)%list
            /\ filter isFetch rest = []))
  /\ filter isAccess (events (Confinement.createProject env projectName template fs)) = []
  /\ filter isRemove (events (Confinement.createProject env projectName template fs)) = [].
Proof.
  intros Hp Hn.
  pose proof (confPreamble_silent env projectName template fs typed picked name)
    as (HF & HR & HA).
  destruct (exists_ fs (destination env name)) eqn:He.
  { rewrite (conf_run_exists _ _ _ _ _ _ Hp _ Hn He). cbn [events].
    rewrite !filter_app, HF, HR, HA. repeat split. now left. }
  destruct (exists_ fs (candidate env (confFinal env template fs))) eqn:Ht.
  2:{ rewrite (conf_run_missing _ _ _ _ _ _ Hp _ Hn He Ht). cbn [events].
      rewrite !filter_app, HF, HR, HA. repeat split. now left. }
  destruct (clone env "fraanlol/template-base" (destination env name) fs)
    as [fs'|err fs'] eqn:Hc.
  - rewrite (conf_run_cloned _ _ _ _ _ _ Hp _ Hn _ He Ht Hc). cbn [events].
    rewrite !filter_app, HR, HA. repeat split.
    right. split; [reflexivity|]. eexists. split; reflexivity.
  - rewrite (conf_run_failed _ _ _ _ _ _ Hp _ Hn _ _ He Ht Hc). cbn [events].
    rewrite !filter_app, HR, HA. repeat split.
    right. split; [reflexivity|]. eexists. split; reflexivity.
Qed.

End Shapes.

(** The confinement variant does not look at the parent directory: with a
    working directory that is not writable it goes on to the fetch. *)
Lemma unwritable_parent_not_checked :
  writable lockedCheckout (Path.dirname (destination (onlineEnv "app" "base") "app")) = false
  /\ filter isAccess
       (events (Confinement.createProject (onlineEnv "app" "base")
                  JsUndefined (JsStr "base") lockedCheckout)) = []
  /\ filter isFetch
       (events (Confinement.createProject (onlineEnv "app" "base")
                  JsUndefined (JsStr "base") lockedCheckout))
     = [Fetch "fraanlol/template-base" ["work"; "app"]]
  /\ exitStatus (Confinement.createProject (onlineEnv "app" "base")
                   JsUndefined (JsStr "base") lockedCheckout) = 0%Z.
Proof. repeat split; reflexivity. Qed.

(** C4, amended.  In the allow-list variant a run that reaches the guard
    first checks that the destination does not exist and, if it does,
    reports it and exits with status 1 without testing write access or
    fetching; it then tests write access to the parent directory and, if
    that fails, reports it and exits with status 1 without fetching; the
    fetch is only called after both checks passed, in this order.  The
    confinement variant makes the first check only: it never tests write
    access. *)
Theorem destination_guard
        (env : Collaborators) (projectName template : JsValue) (fs : FileSystem)
        (typed picked name : string) :
  prompt env (negb (truthy projectName)) (asksTemplate template) = Answered typed picked ->
  projectNameOf projectName typed = JsStr name ->
  (exists_ fs (destination env name) = true ->
   exitStatus (AllowList.createProject env projectName template fs) = 1%Z
   /\ In (Log (DirectoryExists (JsStr name)))
         (events (AllowList.createProject env projectName template fs))
   /\ filter isAccess (events (AllowList.createProject env projectName template fs)) = []
   /\ filter isFetch (events (AllowList.createProject env projectName template fs)) = [])
  /\ (exists_ fs (destination env name) = false ->
      writable fs (Path.dirname (destination env name)) = false ->
      exitStatus (AllowList.createProject env projectName template fs) = 1%Z
      /\ In (Log (CannotWrite (Path.dirname (destination env name))))
            (events (AllowList.createProject env projectName template fs))
      /\ filter isFetch (events (AllowList.createProject env projectName template fs)) = [])
  /\ (filter isFetch (events (AllowList.createProject env projectName template fs)) <> [] ->
      exists_ fs (destination env name) = false
      /\ writable fs (Path.dirname (destination env name)) = true
      /\ exists before rest,
           events (AllowList.createProject env projectName template fs)
           = (before
              ++ Exists (destination env name)
              :: Access (Path.dirname (destination env name))
              :: Spin SpinStart
              :: Fetch (coordinateOf (allowFinal template picked)) (destination env name)
              :: rest)%list
           /\ filter isFetch before = [] /\ filter isFetch rest = [])
  /\ filter isAccess (events (Confinement.createProject env projectName template fs)) = [].
Proof.
  intros Hp Hn.
  pose proof (allowPreamble_silent env projectName template picked name) as (HF & _ & HA).
  split; [|split; [|split]].
  - intros He. rewrite (allow_run_exists _ _ _ _ _ _ Hp _ Hn He). cbn [events].
    rewrite !filter_app, HF, HA. repeat split.
    apply in_or_app. right. now left.
  - intros He Hw. rewrite (allow_run_not_writable _ _ _ _ _ _ Hp _ Hn He Hw). cbn [events].
    rewrite !filter_app, HF. repeat split.
    apply in_or_app. right. right. now left.
  - intros Hfetch.
    destruct (allow_run_shape env projectName template fs typed picked name Hp Hn)
      as [Hnone | (He & Hw & rest & Hev & Hrest)]; [contradiction|].
    split; [exact He|]. split; [exact Hw|].
    exists (Asked (negb (truthy projectName)) (asksTemplate template)
            :: fallbackWarning (allowFinal template picked) (chosenTemplate template picked)
            ++ [Log (Creating (JsStr name) (allowFinal template picked))])%list, rest.
    split; [|split; [|exact Hrest]].
    + rewrite Hev. unfold allowPreamble. cbn [app]. f_equal.
      rewrite <- !app_assoc. reflexivity.
    + cbn [filter isFetch]. rewrite filter_app.
      unfold fallbackWarning. now destruct (strictNeqStr _ _).
  - apply (conf_run_shape env projectName template fs typed picked name Hp Hn).
Qed.

Lemma destination_guard_witness :
  writable lockedCheckout (Path.dirname (destination (onlineEnv "app" "base") "app")) = false
  /\ exitStatus (AllowList.createProject (onlineEnv "app" "base")
                   JsUndefined (JsStr "base") lockedCheckout) = 1%Z
  /\ In (Log (CannotWrite ["work"]))
        (events (AllowList.createProject (onlineEnv "app" "base")
                   JsUndefined (JsStr "base") lockedCheckout))
  /\ filter isFetch
       (events (AllowList.createProject (onlineEnv "app" "base")
                  JsUndefined (JsStr "base") lockedCheckout)) = [].
Proof.
  split; [reflexivity|].
  apply (proj1 (proj2 (destination_guard (onlineEnv "app" "base")
                         JsUndefined (JsStr "base") lockedCheckout
                         "app" "base" "app" eq_refl eq_refl)));
    reflexivity.
Defined.

(** In the confinement variant a fetch that fails after it began to write
    leaves the destination behind: nothing is removed and no warning about
    it is printed. *)
Lemma failed_fetch_left_behind :
  exists_ (fsAfter (Confinement.createProject (offlineEnv "app" "base" Removed)
                      JsUndefined (JsStr "base") checkout))
          (destination (offlineEnv "app" "base" Removed) "app") = true
  /\ events (Confinement.createProject (offlineEnv "app" "base" Removed)
               JsUndefined (JsStr "base") checkout)
     = [Asked true false; Log (ShowAnswers (JsStr "app") JsUndefined);
        Realpath ["pkgs"]; Realpath ["pkgs"; "template-base"];
        Exists ["pkgs"; "template-base"]; Stat ["pkgs"; "template-base"];
        Exists ["pkgs"; "template-base"; "package.json"];
        Log (Creating (JsStr "app") "base"); Exists ["work"; "app"];
        Exists ["pkgs"; "template-base"];
        Log (ShowPaths ["work"; "app"] ["pkgs"; "template-base"]);
        Spin SpinStart; Fetch "fraanlol/template-base" ["work"; "app"];
        Spin SpinFail; Log (ShowError networkError)].
Proof. split; reflexivity. Qed.

(** C2, amended.  In the allow-list variant, when the fetch fails after the
    guard passed, the run reports the message of the fetch error and exits
    with status 1; if the destination exists then, it is removed, and if
    the removal fails a warning to remove it manually is printed: after the
    run the destination does not exist, or that warning was printed.  In
    the confinement variant the run reports the error and exits with status
    1, and the filesystem stays as the failed fetch left it. *)
Theorem failed_fetch_rolls_back
        (env : Collaborators) (projectName template : JsValue) (fs : FileSystem)
        (typed picked name : string) (err : JsError) (fs' : FileSystem) :
  prompt env (negb (truthy projectName)) (asksTemplate template) = Answered typed picked ->
  projectNameOf projectName typed = JsStr name ->
  exists_ fs (destination env name) = false ->
  (writable fs (Path.dirname (destination env name)) = true ->
   clone env (coordinateOf (allowFinal template picked)) (destination env name) fs
   = CloneFailed err fs' ->
   exitStatus (AllowList.createProject env projectName template fs) = 1%Z
   /\ In (Log (ErrorDetails (message err)))
         (events (AllowList.createProject env projectName template fs))
   /\ (remove env (destination env name) fs' = Removed ->
       exists_ (fsAfter (AllowList.createProject env projectName template fs))
               (destination env name) = false)
   /\ (exists_ (fsAfter (AllowList.createProject env projectName template fs))
               (destination env name) = false
       \/ In (Log (CleanupWarning (JsStr name)))
             (events (AllowList.createProject env projectName template fs))))
  /\ (exists_ fs (candidate env (confFinal env template fs)) = true ->
      clone env "fraanlol/template-base" (destination env name) fs = CloneFailed err fs' ->
      exitStatus (Confinement.createProject env projectName template fs) = 1%Z
      /\ In (Log (ShowError err))
            (events (Confinement.createProject env projectName template fs))
      /\ fsAfter (Confinement.createProject env projectName template fs) = fs'
      /\ filter isRemove (events (Confinement.createProject env projectName template fs)) = []).
Proof.
  intros Hp Hn He. split.
  - intros Hw Hc.
    assert (forall l, In (Log (ErrorDetails (message err))) (l ++ errorReport err)) as Hrep.
    { intros l. apply in_or_app. right. now left. }
    destruct (exists_ fs' (destination env name)) eqn:He'.
    + destruct (remove env (destination env name) fs') as [|err' fs''] eqn:Hr.
      * rewrite (allow_run_failed_removed _ _ _ _ _ _ Hp _ Hn _ _ He Hw Hc He' Hr).
        cbn [events fsAfter]. split; [reflexivity|]. split; [rewrite app_assoc; apply Hrep|].
        split; [intros _|left]; apply removeTree_gone.
      * rewrite (allow_run_failed_stuck _ _ _ _ _ _ Hp _ Hn _ _ _ _ He Hw Hc He' Hr).
        cbn [events fsAfter]. split; [reflexivity|]. split; [rewrite app_assoc; apply Hrep|].
        split; [discriminate|]. right.
        apply in_or_app. right. apply in_or_app. left. cbn. tauto.
    + rewrite (allow_run_failed_clean _ _ _ _ _ _ Hp _ Hn _ _ He Hw Hc He').
      cbn [events fsAfter]. split; [reflexivity|]. split; [rewrite app_assoc; apply Hrep|].
      split; [intros _|left]; exact He'.
  - intros Ht Hc.
    rewrite (conf_run_failed _ _ _ _ _ _ Hp _ Hn _ _ He Ht Hc). cbn [events fsAfter].
    split; [reflexivity|]. split; [apply in_or_app; right; cbn; tauto|].
    split; [reflexivity|]. rewrite filter_app.
    now rewrite (proj1 (proj2 (confPreamble_silent env projectName template fs typed picked name))).
Qed.

Lemma failed_fetch_rolls_back_witness :
  exists_ (fsAfter (AllowList.createProject (offlineEnv "app" "base" Removed)
                      JsUndefined (JsStr "base") checkout))
          (destination (offlineEnv "app" "base" Removed) "app") = false.
Proof.
  apply (proj1 (failed_fetch_rolls_back (offlineEnv "app" "base" Removed)
                  JsUndefined (JsStr "base") checkout "app" "base" "app"
                  networkError (withEntry ["work"; "app"] checkout)
                  eq_refl eq_refl eq_refl) eq_refl eq_refl).
  reflexivity.
Defined.

(** A removal that fails: the warning is printed, then the fetch error. *)
Example removal_failure_warns :
  events (AllowList.createProject
            (offlineEnv "app" "base"
               (RemoveFailed busyError (withEntry ["work"; "app"] checkout)))
            JsUndefined (JsStr "redux") checkout)
  = [Asked true false; Log (Creating (JsStr "app") "redux");
     Exists ["work"; "app"]; Access ["work"]; Spin SpinStart;
     Fetch "fraanlol/template-react-redux" ["work"; "app"];
     Spin SpinFail; Exists ["work"; "app"]; Remove ["work"; "app"];
     Log (CleanupWarning (JsStr "app"));
     Log (ErrorDetails "could not download"); Log CheckConnection].
Proof. reflexivity. Qed.

(** ** The coordinate of the fetch *)

Lemma allow_fetches (env : Collaborators) (projectName template : JsValue) (fs : FileSystem) :
  filter isFetch (events (AllowList.createProject env projectName template fs)) = []
  \/ exists typed picked name,
       prompt env (negb (truthy projectName)) (asksTemplate template) = Answered typed picked
       /\ projectNameOf projectName typed = JsStr name
       /\ filter isFetch (events (AllowList.createProject env projectName template fs))
          = [Fetch (coordinateOf (allowFinal template picked)) (destination env name)].
Proof.
  destruct (prompt env (negb (truthy projectName)) (asksTemplate template))
    as [typed picked|error] eqn:Hp.
  2:{ left. now rewrite (allow_run_rejected _ _ _ _ _ Hp). }
  destruct (projectNameOf projectName typed) as [| |b|z|name|] eqn:Hn.
  5:{ destruct (allow_run_shape env projectName template fs typed picked name Hp Hn)
        as [Hnone | (_ & _ & rest & Hev & Hrest)]; [now left|].
      right. exists typed, picked, name. repeat split; try assumption.
      rewrite Hev, filter_app.
      rewrite (proj1 (allowPreamble_silent env projectName template picked name)).
      cbn [app filter isFetch]. now rewrite Hrest. }
  all: left;
    destruct (allow_run_nameless env projectName template fs typed picked Hp)
      as (evs & -> & HF & _); [now rewrite Hn|exact HF].
Qed.

Lemma conf_fetches (env : Collaborators) (projectName template : JsValue) (fs : FileSystem) :
  filter isFetch (events (Confinement.createProject env projectName template fs)) = []
  \/ exists name,
       filter isFetch (events (Confinement.createProject env projectName template fs))
       = [Fetch "fraanlol/template-base" (destination env name)].
Proof.
  destruct (prompt env (negb (truthy projectName)) (asksTemplate template))
    as [typed picked|error] eqn:Hp.
  2:{ left. now rewrite (conf_run_rejected _ _ _ _ _ Hp). }
  destruct (projectNameOf projectName typed) as [| |b|z|name|] eqn:Hn.
  5:{ destruct (conf_run_shape env projectName template fs typed picked name Hp Hn)
        as ([Hnone | (_ & rest & Hev & Hrest)] & _); [now left|].
      right. exists name.
      rewrite Hev, filter_app.
      rewrite (proj1 (confPreamble_silent env projectName template fs typed picked name)).
      cbn [app filter isFetch]. now rewrite Hrest. }
  all: left;
    destruct (conf_run_nameless env projectName template fs typed picked Hp)
      as (evs & -> & HF & _); [now rewrite Hn|exact HF].
Qed.

Lemma coordinateOf_injective (a b : string) :
  coordinateOf a = coordinateOf b -> a = b.
Proof. unfold coordinateOf. cbn [String.append]. congruence. Qed.

(** The confinement variant resolves ["redux"] to ["redux"] and then
    fetches the coordinate of the base template, the one it fetches for
    ["base"] too. *)
Lemma redux_fetches_base_coordinate :
  outcome (Confinement.validateTemplate (onlineEnv "app" "base")
             (JsStr "redux") checkout) = Return "redux"
  /\ filter isFetch (events (Confinement.createProject (onlineEnv "app" "base")
                               JsUndefined (JsStr "redux") checkout))
     = [Fetch "fraanlol/template-base" ["work"; "app"]]
  /\ filter isFetch (events (Confinement.createProject (onlineEnv "app" "base")
                               JsUndefined (JsStr "base") checkout))
     = [Fetch "fraanlol/template-base" ["work"; "app"]].
Proof. repeat split; reflexivity. Qed.

(** C7, amended.  In the allow-list variant every fetch of every run is
    called with the coordinate [fraanlol/template-react-<t>] of the
    template [t] the run resolved; distinct templates have distinct
    coordinates, and ["redux"] has a coordinate of its own.  In the
    confinement variant every fetch is called with the one coordinate
    [fraanlol/template-base], whatever template was resolved. *)
Theorem fetch_coordinate
        (env : Collaborators) (projectName template : JsValue) (fs : FileSystem)
        (c : string) (d : path) :
  (In (Fetch c d) (events (AllowList.createProject env projectName template fs)) ->
   exists typed picked,
     prompt env (negb (truthy projectName)) (asksTemplate template) = Answered typed picked
     /\ c = coordinateOf (AllowList.validateTemplate (chosenTemplate template picked)))
  /\ (forall a b, coordinateOf a = coordinateOf b -> a = b)
  /\ coordinateOf "redux" = "fraanlol/template-react-redux"
  /\ coordinateOf "redux" <> coordinateOf "base"
  /\ (In (Fetch c d) (events (Confinement.createProject env projectName template fs)) ->
      c = "fraanlol/template-base").
Proof.
  split; [|split; [exact coordinateOf_injective|split; [reflexivity|split; [discriminate|]]]].
  - intros Hin.
    assert (In (Fetch c d)
              (filter isFetch (events (AllowList.createProject env projectName template fs))))
      as Hf by (apply filter_In; now split).
    destruct (allow_fetches env projectName template fs)
      as [E | (typed & picked & name & Hp & _ & E)]; rewrite E in Hf.
    + destruct Hf.
    + destruct Hf as [Hf | []]. injection Hf as <- _.
      now exists typed, picked.
  - intros Hin.
    assert (In (Fetch c d)
              (filter isFetch (events (Confinement.createProject env projectName template fs))))
      as Hf by (apply filter_In; now split).
    destruct (conf_fetches env projectName template fs) as [E | (name & E)]; rewrite E in Hf.
    + destruct Hf.
    + destruct Hf as [Hf | []]. now injection Hf as <- _.
Qed.

Lemma fetch_coordinate_witness :
  exists typed picked,
    prompt (onlineEnv "app" "base") true false = Answered typed picked
    /\ "fraanlol/template-react-redux"
       = coordinateOf (AllowList.validateTemplate (chosenTemplate (JsStr "redux") picked)).
Proof.
  apply (proj1 (fetch_coordinate (onlineEnv "app" "base") JsUndefined (JsStr "redux")
                  checkout "fraanlol/template-react-redux" ["work"; "app"])).
  cbn. tauto.
Defined.

(** ** The template option and the prompt *)

Lemma allow_run_preamble
      (env : Collaborators) (projectName template : JsValue) (fs : FileSystem)
      (typed picked name : string) :
  prompt env (negb (truthy projectName)) (asksTemplate template) = Answered typed picked ->
  projectNameOf projectName typed = JsStr name ->
  exists rest,
    events (AllowList.createProject env projectName template fs)
    = (allowPreamble env projectName template picked name ++ rest)%list.
Proof.
  intros Hp Hn.
  destruct (exists_ fs (destination env name)) eqn:He.
  { rewrite (allow_run_exists _ _ _ _ _ _ Hp _ Hn He). now eexists. }
  destruct (allow_run_shape env projectName template fs typed picked name Hp Hn)
    as [Hnone | (_ & Hw & rest & -> & _)]; [|now eexists].
  destruct (writable fs (Path.dirname (destination env name))) eqn:Hw.
  - destruct (allow_run_shape env projectName template fs typed picked name Hp Hn)
      as [Hnone' | (_ & _ & rest & -> & _)]; [|now eexists].
    exfalso. revert Hnone.
    destruct (clone env (coordinateOf (allowFinal template picked)) (destination env name) fs)
      as [fs'|err fs'] eqn:Hc.
    + rewrite (allow_run_cloned _ _ _ _ _ _ Hp _ Hn _ He Hw Hc). cbn [events].
      rewrite filter_app. cbn [filter isFetch]. intros H.
      apply app_eq_nil in H as [_ H]. discriminate H.
    + destruct (exists_ fs' (destination env name)) eqn:He'.
      * destruct (remove env (destination env name) fs') as [|err' fs''] eqn:Hr.
        -- rewrite (allow_run_failed_removed _ _ _ _ _ _ Hp _ Hn _ _ He Hw Hc He' Hr).
           cbn [events]. rewrite !filter_app. cbn [filter isFetch]. intros H.
           apply app_eq_nil in H as [_ H]. discriminate H.
        -- rewrite (allow_run_failed_stuck _ _ _ _ _ _ Hp _ Hn _ _ _ _ He Hw Hc He' Hr).
           cbn [events]. rewrite !filter_app. cbn [filter isFetch]. intros H.
           apply app_eq_nil in H as [_ H]. discriminate H.
      * rewrite (allow_run_failed_clean _ _ _ _ _ _ Hp _ Hn _ _ He Hw Hc He').
        cbn [events]. rewrite !filter_app. cbn [filter isFetch]. intros H.
        apply app_eq_nil in H as [_ H]. discriminate H.
  - rewrite (allow_run_not_writable _ _ _ _ _ _ Hp _ Hn He Hw). now eexists.
Qed.

Lemma conf_run_preamble
      (env : Collaborators) (projectName template : JsValue) (fs : FileSystem)
      (typed picked name : string) :
  prompt env (negb (truthy projectName)) (asksTemplate template) = Answered typed picked ->
  projectNameOf projectName typed = JsStr name ->
  exists rest,
    events (Confinement.createProject env projectName template fs)
    = (confPreamble env projectName template fs typed picked name ++ rest)%list.
Proof.
  intros Hp Hn.
  destruct (exists_ fs (destination env name)) eqn:He.
  { rewrite (conf_run_exists _ _ _ _ _ _ Hp _ Hn He). now eexists. }
  destruct (exists_ fs (candidate env (confFinal env template fs))) eqn:Ht.
  2:{ rewrite (conf_run_missing _ _ _ _ _ _ Hp _ Hn He Ht). now eexists. }
  destruct (clone env "fraanlol/template-base" (destination env name) fs)
    as [fs'|err fs'] eqn:Hc.
  - rewrite (conf_run_cloned _ _ _ _ _ _ Hp _ Hn _ He Ht Hc). now eexists.
  - rewrite (conf_run_failed _ _ _ _ _ _ Hp _ Hn _ _ He Ht Hc). now eexists.
Qed.

Lemma creating_in_allowPreamble
      (env : Collaborators) (projectName template : JsValue) (picked name : string) :
  In (Asked (negb (truthy projectName)) (asksTemplate template))
     (allowPreamble env projectName template picked name)
  /\ In (Log (Creating (JsStr name) (allowFinal template picked)))
        (allowPreamble env projectName template picked name).
Proof.
  unfold allowPreamble. split; [now left|].
  right. apply in_or_app. right. now left.
Qed.

Lemma creating_in_confPreamble
      (env : Collaborators) (projectName template : JsValue) (fs : FileSystem)
      (typed picked name : string) :
  In (Log (Creating (JsStr name) (confFinal env template fs)))
     (confPreamble env projectName template fs typed picked name).
Proof.
  unfold confPreamble. right. right.
  apply in_or_app. right. apply in_or_app. right. now left.
Qed.

(** With the option ["REDUX"], which is not in the list, the template
    question is asked and the user picks ["base"]; the run goes on with
    ["redux"], not with the fallback. *)
Lemma unlisted_option_not_fallback :
  truthy (JsStr "REDUX") = true
  /\ includes AVAILABLE_TEMPLATES "REDUX" = false
  /\ events (AllowList.createProject (onlineEnv "app" "base")
               JsUndefined (JsStr "REDUX") checkout)
     = [Asked true true; Log (InvalidTemplate (JsStr "REDUX"));
        Log (Creating (JsStr "app") "redux"); Exists ["work"; "app"];
        Access ["work"]; Spin SpinStart;
        Fetch "fraanlol/template-react-redux" ["work"; "app"];
        Spin SpinSucceed; Log (Created (JsStr "app"));
        Log (NextSteps (JsStr "app"))].
Proof. repeat split; reflexivity. Qed.

(** C10, amended.  When the template option is a non-empty string that is
    not in the list, the template question is asked, the option is kept in
    preference to the answer, and the run goes on with
    [validateTemplate(option)], whatever the user picked: that is ["base"]
    when the trimmed, lower-cased option is off the list, and the listed
    name otherwise.  The confinement variant never reads the answer: it
    goes on with its own [validateTemplate(option)]. *)
Theorem unlisted_option_discards_answer
        (env : Collaborators) (projectName : JsValue) (option : string) (fs : FileSystem)
        (typed picked name : string) :
  isEmpty option = false ->
  includes AVAILABLE_TEMPLATES option = false ->
  prompt env (negb (truthy projectName)) (asksTemplate (JsStr option))
  = Answered typed picked ->
  projectNameOf projectName typed = JsStr name ->
  asksTemplate (JsStr option) = true
  /\ In (Asked (negb (truthy projectName)) true)
        (events (AllowList.createProject env projectName (JsStr option) fs))
  /\ chosenTemplate (JsStr option) picked = JsStr option
  /\ In (Log (Creating (JsStr name) (AllowList.validateTemplate (JsStr option))))
        (events (AllowList.createProject env projectName (JsStr option) fs))
  /\ (offAllowList (JsStr option) = true ->
      AllowList.validateTemplate (JsStr option) = "base")
  /\ (offAllowList (JsStr option) = false ->
      AllowList.validateTemplate (JsStr option) = normalize option)
  /\ In (Log (Creating (JsStr name) (confFinal env (JsStr option) fs)))
        (events (Confinement.createProject env projectName (JsStr option) fs)).
Proof.
  intros Hne Hoff Hp Hn.
  assert (asksTemplate (JsStr option) = true) as Hask.
  { unfold asksTemplate. cbn [includesValue]. rewrite Hoff. apply orb_true_r. }
  assert (chosenTemplate (JsStr option) picked = JsStr option) as Hkept.
  { unfold chosenTemplate, jsOr. cbn [truthy]. now rewrite Hne. }
  destruct (allow_run_preamble env projectName (JsStr option) fs typed picked name Hp Hn)
    as (rest & Hev).
  destruct (conf_run_preamble env projectName (JsStr option) fs typed picked name Hp Hn)
    as (rest' & Hev').
  pose proof (creating_in_allowPreamble env projectName (JsStr option) picked name)
    as [Hasked Hcreating].
  unfold allowFinal in Hcreating. rewrite Hkept in Hcreating. rewrite Hask in Hasked.
  split; [exact Hask|]. split; [rewrite Hev; apply in_or_app; now left|].
  split; [exact Hkept|]. split; [rewrite Hev; apply in_or_app; now left|].
  split; [apply allow_validateTemplate_off|]. split.
  - unfold offAllowList, AllowList.validateTemplate. cbn [truthy]. rewrite Hne.
    cbn [negb]. intros H. apply negb_false_iff in H. rewrite H. cbn [negb].
    destruct (templateNameRe (normalize option)) eqn:Hre; [reflexivity|].
    exfalso. unfold includes, AVAILABLE_TEMPLATES in H. cbn [existsb] in H.
    apply orb_true_iff in H as [H | H];
      [|apply orb_true_iff in H as [H | H]; [|discriminate H]];
      apply String.eqb_eq in H; rewrite H in Hre; discriminate Hre.
  - rewrite Hev'. apply in_or_app. left. apply creating_in_confPreamble.
Qed.

Lemma unlisted_option_discards_answer_witness :
  In (Log (Creating (JsStr "app") (AllowList.validateTemplate (JsStr "vue"))))
     (events (AllowList.createProject (onlineEnv "app" "redux")
                JsUndefined (JsStr "vue") checkout))
  /\ AllowList.validateTemplate (JsStr "vue") = "base".
Proof.
  pose proof (unlisted_option_discards_answer (onlineEnv "app" "redux")
                JsUndefined "vue" checkout "app" "redux" "app"
                eq_refl eq_refl eq_refl eq_refl) as (_ & _ & _ & H & Hbase & _).
  split; [exact H|]. apply Hbase. reflexivity.
Defined.

(** * Further properties of the code *)

(** ** Normal forms of template names *)

Lemma lowerChar_idem (c : ascii) : lowerChar (lowerChar c) = lowerChar c.
Proof. each_char c. Qed.

Lemma lowerChar_white (c : ascii) : isWhiteSpace (lowerChar c) = isWhiteSpace c.
Proof. each_char c. Qed.

Lemma isEmpty_mapChars (f : ascii -> ascii) (s : string) :
  isEmpty (mapChars f s) = isEmpty s.
Proof. now destruct s. Qed.

Lemma trimStart_lower (s : string) :
  trimStart (toLowerCase s) = toLowerCase (trimStart s).
Proof.
  unfold toLowerCase. induction s as [|c s IH]; [reflexivity|].
  cbn [mapChars trimStart]. rewrite lowerChar_white.
  destruct (isWhiteSpace c); [exact IH|reflexivity].
Qed.

Lemma trimEnd_lower (s : string) :
  trimEnd (toLowerCase s) = toLowerCase (trimEnd s).
Proof.
  unfold toLowerCase. induction s as [|c s IH]; [reflexivity|].
  cbn [mapChars trimEnd]. rewrite lowerChar_white, IH, isEmpty_mapChars.
  now destruct (isWhiteSpace c && isEmpty (trimEnd s)).
Qed.

Lemma toLowerCase_idem (s : string) : toLowerCase (toLowerCase s) = toLowerCase s.
Proof.
  unfold toLowerCase. induction s as [|c s IH]; [reflexivity|].
  cbn [mapChars]. now rewrite lowerChar_idem, IH.
Qed.

Lemma trimEnd_idem (s : string) : trimEnd (trimEnd s) = trimEnd s.
Proof.
  induction s as [|c s IH]; [reflexivity|]. cbn [trimEnd].
  destruct (isWhiteSpace c && isEmpty (trimEnd s)) eqn:E; [reflexivity|].
  cbn [trimEnd]. now rewrite IH, E.
Qed.

Lemma trimStart_head (s : string) :
  trimStart s = "" \/ exists c r, trimStart s = String c r /\ isWhiteSpace c = false.
Proof.
  induction s as [|c s IH]; [now left|]. cbn [trimStart].
  destruct (isWhiteSpace c) eqn:E; [exact IH|]. right. now exists c, s.
Qed.

Lemma trim_idem (s : string) : trim (trim s) = trim s.
Proof.
  unfold trim. destruct (trimStart_head s) as [-> | (c & r & -> & Hc)]; [reflexivity|].
  cbn [trimEnd]. rewrite Hc. cbn [andb trimStart]. rewrite Hc.
  cbn [trimEnd]. now rewrite trimEnd_idem, Hc.
Qed.

Lemma trim_lower (s : string) : trim (toLowerCase s) = toLowerCase (trim s).
Proof. unfold trim. now rewrite trimStart_lower, trimEnd_lower. Qed.

Lemma normalize_idem (s : string) : normalize (normalize s) = normalize s.
Proof.
  unfold normalize. now rewrite trim_lower, trim_idem, toLowerCase_idem.
Qed.

(** X4. In both variants [validateTemplate] gives to a raw string what it
    gives to its trimmed, lower-cased form: template names are insensitive
    to case and to surrounding white space.  In the confinement variant the
    two runs read and print the same too. *)
Theorem validateTemplate_normal_form (env : Collaborators) (fs : FileSystem) (s : string) :
  AllowList.validateTemplate (JsStr s) = AllowList.validateTemplate (JsStr (normalize s))
  /\ Confinement.validateTemplate env (JsStr s) fs
     = Confinement.validateTemplate env (JsStr (normalize s)) fs.
Proof.
  unfold AllowList.validateTemplate, Confinement.validateTemplate. cbn [truthy].
  rewrite normalize_idem.
  destruct (isEmpty (normalize s)) eqn:En.
  - assert (templateNameRe (normalize s) = false) as ->
        by (unfold templateNameRe, testClassPlus; now rewrite En).
    now destruct (negb (isEmpty s)).
  - assert (isEmpty s = false) as -> by (destruct s; [discriminate En|reflexivity]).
    now split.
Qed.

(** ** Real paths inside the templates root *)

Lemma prefix_app_same (a b c : string) :
  String.prefix (a ++ b) (a ++ c) = String.prefix b c.
Proof.
  induction a as [|x a IH]; [reflexivity|]. cbn [String.append String.prefix].
  destruct (ascii_dec x x); [exact IH|congruence].
Qed.

Lemma prefix_empty (c : string) : String.prefix "" c = true.
Proof. now destruct c. Qed.

Lemma prefix_app (a c : string) : String.prefix a (a ++ c) = true.
Proof.
  induction a as [|x a IH]; [apply prefix_empty|]. cbn [String.append String.prefix].
  destruct (ascii_dec x x); [exact IH|congruence].
Qed.

Lemma join_prefix (p q : path) :
  Path.isPrefix p q = true ->
  String.prefix (JsString.join "/" p) (JsString.join "/" q) = true.
Proof.
  revert q. induction p as [|x p IH]; intros q H; [apply prefix_empty|].
  destruct q as [|y q]; [discriminate H|]. cbn [Path.isPrefix] in H.
  apply andb_true_iff in H as [Hxy Hpq]. apply String.eqb_eq in Hxy. subst y.
  destruct p as [|z p].
  - destruct q as [|z q]; cbn [JsString.join]; [|apply prefix_app].
    clear. induction x as [|c x IH]; [reflexivity|]. cbn [String.prefix].
    destruct (ascii_dec c c); [exact IH|congruence].
  - destruct q as [|z' q]; [discriminate Hpq|].
    change (JsString.join "/" (x :: z :: p))
      with (x ++ "/" ++ JsString.join "/" (z :: p)).
    change (JsString.join "/" (x :: z' :: q))
      with (x ++ "/" ++ JsString.join "/" (z' :: q)).
    rewrite !prefix_app_same. now apply IH.
Qed.

(** A real candidate inside the real root has the root's string as a prefix
    of its own: the second test of line 38 never rejects what the first
    test let through. *)
Lemma render_prefix (realRoot realCandidate : path) :
  startsWith (Path.relative realRoot realCandidate) ".." = false ->
  startsWith (Path.render realCandidate) (Path.render realRoot) = true.
Proof.
  intros H. apply relative_inside in H.
  unfold startsWith, Path.render. rewrite prefix_app_same. now apply join_prefix.
Qed.

(** ** The manifest scan *)

Section ScanFacts.

Variable env : Collaborators.
Variable fs : FileSystem.

Lemma scanManifest_parsed (name : string) (p : path) (j : Json) :
  readJson fs p = Some j ->
  Confinement.scanManifest name p fs
  = mkResult (Return None) fs (ReadJson p :: hookWarning name j).
Proof.
  intros Hj. unfold Confinement.scanManifest, hookWarning, declaredHooks.
  run_cbn. rewrite Hj. run_cbn.
  destruct (if jsonTruthy j then getScripts j else None) as [scripts|]; run_cbn;
    [|reflexivity].
  destruct (jsonTruthy scripts); run_cbn; [|reflexivity].
  destruct (filter (hasOwnProperty scripts) Confinement.lifecycleKeys); reflexivity.
Qed.

(** The events of the confinement checks up to the test for a manifest. *)
Lemma confine_outcomes (name : string) :
  (failsConfinement env fs name = true
   /\ filter isLog (events (Confinement.confine env name fs)) = []
   /\ outcome (Confinement.confine env name fs) <> Return None)
  \/ exists realRoot realCandidate,
       realpath fs (templatesRoot env) = Some realRoot
       /\ realpath fs (candidate env name) = Some realCandidate
       /\ failsConfinement env fs name = false
       /\ ((exists_ fs (manifestOf realCandidate) = false
            /\ Confinement.confine env name fs
               = mkResult (Return None) fs
                   [Realpath (templatesRoot env); Realpath (candidate env name);
                    Exists realCandidate; Stat realCandidate;
                    Exists (manifestOf realCandidate)])
           \/ (exists_ fs (manifestOf realCandidate) = true
               /\ readJson fs (manifestOf realCandidate) = None
               /\ Confinement.confine env name fs
                  = mkResult (Return (Some "base")) fs
                      [Realpath (templatesRoot env); Realpath (candidate env name);
                       Exists realCandidate; Stat realCandidate;
                       Exists (manifestOf realCandidate);
                       ReadJson (manifestOf realCandidate)])
           \/ (exists j,
                 exists_ fs (manifestOf realCandidate) = true
                 /\ readJson fs (manifestOf realCandidate) = Some j
                 /\ Confinement.confine env name fs
                    = mkResult (Return None) fs
                        (Realpath (templatesRoot env) :: Realpath (candidate env name)
                         :: Exists realCandidate :: Stat realCandidate
                         :: Exists (manifestOf realCandidate)
                         :: ReadJson (manifestOf realCandidate)
                         :: hookWarning name j))).
Proof.
  unfold Confinement.confine, failsConfinement, candidate, manifestOf.
  unfold templatesRoot. run_cbn.
  destruct (realpath fs (Path.resolve (dirname env) "..")) as [rr|] eqn:Hrr; run_cbn;
    [|left; repeat split; discriminate].
  destruct (realpath fs (Path.resolve (Path.resolve (dirname env) "..") _))
    as [rc|] eqn:Hrc; run_cbn;
    [|left; repeat split; discriminate].
  destruct (startsWith (Path.relative rr rc) "..") eqn:Hrel; cbn [orb];
    [left; repeat split; discriminate|].
  rewrite (render_prefix rr rc Hrel). cbn [negb]. rewrite andb_false_r.
  destruct (exists_ fs rc) eqn:Hex; cbn [negb orb]; run_cbn;
    [|left; repeat split; discriminate].
  destruct (isDirectory fs rc) as [[|]|] eqn:Hdir; cbn [negb orb]; run_cbn;
    [|left; repeat split; discriminate..].
  right. exists rr, rc. split; [reflexivity|]. split; [reflexivity|].
  split; [reflexivity|].
  destruct (exists_ fs (Path.join rc "package.json")) eqn:Hman; run_cbn;
    [|left; split; reflexivity].
  right. destruct (readJson fs (Path.join rc "package.json")) as [j|] eqn:Hj.
  - right. exists j. split; [reflexivity|]. split; [reflexivity|].
    rewrite (scanManifest_parsed name _ j Hj). reflexivity.
  - left. split; [reflexivity|]. split; [reflexivity|].
    destruct (scanManifest_result fs name (Path.join rc "package.json"))
      as (r & evs & Hscan & _ & _ & Hbad).
    destruct (Hbad Hj) as [-> ->]. rewrite Hscan. reflexivity.
Qed.

End ScanFacts.

Lemma normalize_nonempty (s : string) :
  templateNameRe (normalize s) = true -> isEmpty s = false.
Proof. destruct s; [discriminate|reflexivity]. Qed.

Lemma declaredHooks_spec (j : Json) (k : string) :
  In k (declaredHooks j)
  <-> In k Confinement.lifecycleKeys
      /\ exists scripts, getScripts j = Some scripts /\ hasOwnProperty scripts k = true.
Proof.
  unfold declaredHooks. split.
  - destruct (jsonTruthy j); [|intros []].
    destruct (getScripts j) as [scripts|]; [|intros []].
    destruct (jsonTruthy scripts); [|intros []].
    intros H. apply filter_In in H as [H1 H2]. split; [exact H1|]. now exists scripts.
  - intros (Hk & scripts & Hs & Hown).
    assert (jsonTruthy j = true) as -> by (destruct j; try discriminate Hs; reflexivity).
    rewrite Hs.
    assert (jsonTruthy scripts = true) as ->
        by (destruct scripts; try discriminate Hown; reflexivity).
    apply filter_In. now split.
Qed.

Section ValidateFacts.

Variable env : Collaborators.
Variable fs : FileSystem.

(** The run of [validateTemplate] on a template that passes confinement and
    whose manifest parses. *)
Lemma validateTemplate_parsed (s : string) (realCandidate : path) (j : Json) :
  templateNameRe (normalize s) = true ->
  failsConfinement env fs (normalize s) = false ->
  realpath fs (candidate env (normalize s)) = Some realCandidate ->
  exists_ fs (manifestOf realCandidate) = true ->
  readJson fs (manifestOf realCandidate) = Some j ->
  Confinement.validateTemplate env (JsStr s) fs
  = mkResult (Return (normalize s)) fs
      (Realpath (templatesRoot env) :: Realpath (candidate env (normalize s))
       :: Exists realCandidate :: Stat realCandidate
       :: Exists (manifestOf realCandidate)
       :: ReadJson (manifestOf realCandidate)
       :: hookWarning (normalize s) j).
Proof.
  intros Hre Hok Hrc Hman Hj.
  unfold Confinement.validateTemplate. cbn [truthy].
  rewrite (normalize_nonempty s Hre), Hre. cbn [negb].
  destruct (confine_outcomes env fs (normalize s))
    as [(Hfail & _) | (rr & rc & Hrr & Hrc' & _ & Hcase)]; [congruence|].
  rewrite Hrc in Hrc'. injection Hrc' as <-.
  destruct Hcase as [(Hno & _) | [(_ & Hbad & _) | (j' & _ & Hj' & Hrun)]];
    [congruence..|].
  rewrite Hj in Hj'. injection Hj' as <-.
  run_cbn. rewrite Hrun. run_cbn. now rewrite app_nil_r.
Qed.

Lemma conf_decision (s : string) :
  outcome (Confinement.validateTemplate env (JsStr s) fs)
  = Return (if templateNameRe (normalize s)
               && negb (failsConfinement env fs (normalize s))
               && negb (manifestUnparseable env fs (normalize s))
            then normalize s else "base").
Proof.
  rewrite conf_outcome.
  destruct (templateNameRe (normalize s)) eqn:Hre; cbn [andb].
  2:{ destruct (conf_validate_cases env fs (JsStr s)) as [-> | (s' & E & _ & Hre' & _)];
        [reflexivity|]. injection E as <-. congruence. }
  destruct (confine_outcomes env fs (normalize s))
    as [(Hfail & _) | (rr & rc & Hrr & Hrc & Hok & Hcase)].
  { rewrite Hfail. cbn [negb andb].
    destruct (conf_validate_cases env fs (JsStr s)) as [-> | (s' & E & _ & _ & Hok & _)];
      [reflexivity|]. injection E as <-. congruence. }
  rewrite Hok. cbn [negb andb]. unfold manifestUnparseable. rewrite Hrc.
  unfold confFinal, Confinement.validateTemplate. cbn [truthy].
  rewrite (normalize_nonempty s Hre), Hre. cbn [negb]. run_cbn.
  destruct Hcase as [(Hno & ->) | [(Hman & Hbad & ->) | (j & Hman & Hj & ->)]]; run_cbn.
  - rewrite Hno. reflexivity.
  - rewrite Hman, Hbad. reflexivity.
  - rewrite Hman, Hj. reflexivity.
Qed.

(** X1. The confinement variant resolves a string to its trimmed,
    lower-cased form exactly when that form is in [^[a-z0-9-]+$], its
    candidate passes confinement and its manifest, if there is one, parses;
    in every other case it resolves to ["base"]. *)
Theorem confinement_decision (s : string) :
  outcome (Confinement.validateTemplate env (JsStr s) fs)
  = Return (if templateNameRe (normalize s)
               && negb (failsConfinement env fs (normalize s))
               && negb (manifestUnparseable env fs (normalize s))
            then normalize s else "base").
Proof. exact (conf_decision s). Qed.

(** What [validateTemplate] prints: nothing, or one lifecycle warning. *)
Lemma lifecycle_warning_helper (t : JsValue) :
  filter isLog (events (Confinement.validateTemplate env t fs)) = []
  \/ exists n found,
       filter isLog (events (Confinement.validateTemplate env t fs))
       = [Log (LifecycleWarning n found)].
Proof.
  destruct t as [| |b|z|s|]; try now left.
  unfold Confinement.validateTemplate. cbn [truthy].
  destruct (isEmpty s) eqn:Hs; cbn [negb]; [now left|].
  destruct (templateNameRe (normalize s)) eqn:Hre; cbn [negb]; [|now left].
  destruct (confine_outcomes env fs (normalize s))
    as [(Hfail & Hlog & Hout) | (rr & rc & Hrr & Hrc & Hok & Hcase)].
  - left. run_cbn.
    destruct (Confinement.confine env (normalize s) fs) as [[[v|]|e|c] fs' evs];
      cbn [events outcome] in *; run_cbn; rewrite ?app_nil_r; exact Hlog.
  - destruct Hcase as [(Hno & Hrun) | [(Hman & Hbad & Hrun) | (j & Hman & Hj & Hrun)]];
      run_cbn; rewrite Hrun; run_cbn; [now left..|].
    unfold hookWarning. destruct (declaredHooks j) as [|k0 found]; [now left|].
    right. now eexists _, _.
Qed.

(** X2. [validateTemplate] of the confinement variant prints nothing, or
    one lifecycle warning.  When it warns, the template passed every check
    and is returned all the same, and the warning lists at least one hook:
    exactly the keys among [preinstall], [install], [postinstall],
    [prepublish] and [prepare] that the manifest's [scripts] has as own
    properties. *)
Theorem lifecycle_warning_content (t : JsValue) :
  filter isLog (events (Confinement.validateTemplate env t fs)) = []
  \/ exists s realCandidate j found,
       t = JsStr s
       /\ realpath fs (candidate env (normalize s)) = Some realCandidate
       /\ readJson fs (manifestOf realCandidate) = Some j
       /\ found <> []
       /\ (forall k, In k found
                     <-> In k Confinement.lifecycleKeys
                         /\ exists scripts, getScripts j = Some scripts
                                            /\ hasOwnProperty scripts k = true)
       /\ filter isLog (events (Confinement.validateTemplate env t fs))
          = [Log (LifecycleWarning (normalize s) found)]
       /\ outcome (Confinement.validateTemplate env t fs) = Return (normalize s).
Proof.
  destruct t as [| |b|z|s|]; try now left.
  unfold Confinement.validateTemplate. cbn [truthy].
  destruct (isEmpty s) eqn:Hs; cbn [negb]; [now left|].
  destruct (templateNameRe (normalize s)) eqn:Hre; cbn [negb]; [|now left].
  destruct (confine_outcomes env fs (normalize s))
    as [(Hfail & Hlog & Hout) | (rr & rc & Hrr & Hrc & Hok & Hcase)].
  - left. run_cbn.
    destruct (Confinement.confine env (normalize s) fs) as [[[v|]|e|c] fs' evs];
      cbn [events outcome] in *; run_cbn; rewrite ?app_nil_r; exact Hlog.
  - destruct Hcase as [(Hno & Hrun) | [(Hman & Hbad & Hrun) | (j & Hman & Hj & Hrun)]];
      run_cbn; rewrite Hrun; run_cbn; [now left..|].
    destruct (declaredHooks j) as [|k0 found] eqn:Hd.
    + left. unfold hookWarning. now rewrite Hd.
    + right. exists s, rc, j, (k0 :: found).
      split; [reflexivity|]. split; [exact Hrc|]. split; [exact Hj|].
      split; [discriminate|]. split; [rewrite <- Hd; apply declaredHooks_spec|].
      unfold hookWarning. rewrite Hd. now split.
Qed.

End ValidateFacts.

(** ** What template validation decides *)

Lemma allow_decision (s : string) :
  AllowList.validateTemplate (JsStr s)
  = if templateNameRe (normalize s) && includes AVAILABLE_TEMPLATES (normalize s)
    then normalize s else "base".
Proof.
  unfold AllowList.validateTemplate. cbn [truthy].
  destruct (isEmpty s) eqn:Hs; cbn [negb].
  - destruct s; [reflexivity|discriminate Hs].
  - destruct (templateNameRe (normalize s)); cbn [negb andb]; [|reflexivity].
    now destruct (includes AVAILABLE_TEMPLATES (normalize s)).
Qed.

Lemma normal_form_runs (env : Collaborators) (fs : FileSystem) (s : string) :
  AllowList.validateTemplate (JsStr s) = AllowList.validateTemplate (JsStr (normalize s))
  /\ Confinement.validateTemplate env (JsStr s) fs
     = Confinement.validateTemplate env (JsStr (normalize s)) fs.
Proof.
  unfold AllowList.validateTemplate, Confinement.validateTemplate. cbn [truthy].
  rewrite normalize_idem.
  destruct (isEmpty (normalize s)) eqn:En.
  - assert (templateNameRe (normalize s) = false) as ->
        by (unfold templateNameRe, testClassPlus; now rewrite En).
    now destruct (negb (isEmpty s)).
  - assert (isEmpty s = false) as -> by (destruct s; [discriminate En|reflexivity]).
    now split.
Qed.

(** C6. [validateTemplate] always returns a value and never ends in an
    error, in both variants; a value that is no string, and the empty
    string, give ["base"].  A string [s] is trimmed and lower-cased before
    it is checked: the allow-list variant returns [s.trim().toLowerCase()]
    exactly when that form is in [^[a-z0-9-]+$] and in the list, the
    confinement variant exactly when it is in [^[a-z0-9-]+$] and passes the
    checks on the filesystem, and both return ["base"] otherwise; [s] and
    its normal form are validated alike; whenever the normal form is
    outside [^[a-z0-9-]+$] the result is ["base"]. *)
Theorem validateTemplate_total (env : Collaborators) (fs : FileSystem) (t : JsValue) :
  (exists v, outcome (Confinement.validateTemplate env t fs) = Return v)
  /\ (isString t = false \/ t = JsStr "" ->
      AllowList.validateTemplate t = "base"
      /\ outcome (Confinement.validateTemplate env t fs) = Return "base")
  /\ (forall s, t = JsStr s ->
      AllowList.validateTemplate t
      = (if templateNameRe (normalize s) && includes AVAILABLE_TEMPLATES (normalize s)
         then normalize s else "base")
      /\ outcome (Confinement.validateTemplate env t fs)
         = Return (if templateNameRe (normalize s)
                      && negb (failsConfinement env fs (normalize s))
                      && negb (manifestUnparseable env fs (normalize s))
                   then normalize s else "base")
      /\ AllowList.validateTemplate t = AllowList.validateTemplate (JsStr (normalize s))
      /\ Confinement.validateTemplate env t fs
         = Confinement.validateTemplate env (JsStr (normalize s)) fs
      /\ (AllowList.validateTemplate t = "base"
          \/ AllowList.validateTemplate t = normalize s)
      /\ (outcome (Confinement.validateTemplate env t fs) = Return "base"
          \/ outcome (Confinement.validateTemplate env t fs) = Return (normalize s))
      /\ (templateNameRe (normalize s) = false ->
          AllowList.validateTemplate t = "base"
          /\ outcome (Confinement.validateTemplate env t fs) = Return "base")).
Proof.
  split; [|split].
  - exists (confFinal env t fs). apply conf_outcome.
  - intros [H | ->]; [destruct t; try discriminate H|]; split; reflexivity.
  - intros s ->.
    split; [apply allow_decision|]. split; [apply conf_decision|].
    split; [exact (proj1 (normal_form_runs env fs s))|].
    split; [exact (proj2 (normal_form_runs env fs s))|].
    rewrite allow_decision, conf_decision.
    split; [destruct (_ && _); [now right|now left]|].
    split; [destruct (_ && _ && _); [now right|now left]|].
    intros ->. now split.
Qed.

Lemma validateTemplate_total_witness :
  AllowList.validateTemplate (JsStr "  REDUX ") = "redux"
  /\ outcome (Confinement.validateTemplate (onlineEnv "app" "base")
                (JsStr "  REDUX ") checkout) = Return "redux"
  /\ AllowList.validateTemplate (JsStr "../../etc") = "base"
  /\ outcome (Confinement.validateTemplate (onlineEnv "app" "base")
                (JsStr "../../etc") checkout) = Return "base".
Proof.
  destruct (proj2 (proj2 (validateTemplate_total (onlineEnv "app" "base") checkout
                            (JsStr "  REDUX "))) "  REDUX " eq_refl)
    as (HB & HA & _).
  split; [exact HB|]. split; [exact HA|].
  apply (proj2 (proj2 (validateTemplate_total (onlineEnv "app" "base") checkout
                         (JsStr "../../etc"))) "../../etc" eq_refl).
  reflexivity.
Defined.

(** ** A manifest that cannot be parsed *)

Lemma unparseable_silent (env : Collaborators) (fs : FileSystem) (s : string) :
  manifestUnparseable env fs (normalize s) = true ->
  filter isLog (events (Confinement.validateTemplate env (JsStr s) fs)) = [].
Proof.
  intros Hbad. unfold Confinement.validateTemplate. cbn [truthy].
  destruct (isEmpty s) eqn:Hs; cbn [negb]; [reflexivity|].
  destruct (templateNameRe (normalize s)) eqn:Hre; cbn [negb]; [|reflexivity].
  unfold manifestUnparseable in Hbad.
  destruct (confine_outcomes env fs (normalize s))
    as [(Hfail & Hlog & Hout) | (rr & rc & Hrr & Hrc & Hok & Hcase)].
  - run_cbn.
    destruct (Confinement.confine env (normalize s) fs) as [[[v|]|e|c] fs' evs];
      cbn [events outcome] in *; run_cbn; rewrite ?app_nil_r; exact Hlog.
  - rewrite Hrc in Hbad.
    destruct Hcase as [(Hno & Hrun) | [(Hman & Hnone & Hrun) | (j & Hman & Hj & Hrun)]].
    + rewrite Hno in Hbad. discriminate Hbad.
    + run_cbn. rewrite Hrun. reflexivity.
    + rewrite Hman, Hj in Hbad. discriminate Hbad.
Qed.

Lemma warning_in_confPreamble
      (env : Collaborators) (projectName template : JsValue) (fs : FileSystem)
      (typed picked name : string) :
  strictNeqStr (confFinal env template fs) template = true ->
  In (Log (InvalidTemplate template))
     (confPreamble env projectName template fs typed picked name).
Proof.
  intros H. unfold confPreamble, fallbackWarning. rewrite H. right. right.
  apply in_or_app. right. now left.
Qed.

(** A request for ["base"] whose own manifest cannot be parsed goes on
    with ["base"], the requested template: no warning is printed and the
    fetch is called. *)
Lemma unparseable_base_proceeds :
  manifestUnparseable (onlineEnv "app" "base") brokenBaseCheckout (normalize "base") = true
  /\ outcome (Confinement.validateTemplate (onlineEnv "app" "base")
                (JsStr "base") brokenBaseCheckout) = Return "base"
  /\ events (Confinement.createProject (onlineEnv "app" "base")
               JsUndefined (JsStr "base") brokenBaseCheckout)
     = [Asked true false; Log (ShowAnswers (JsStr "app") JsUndefined);
        Realpath ["pkgs"]; Realpath ["pkgs"; "template-base"];
        Exists ["pkgs"; "template-base"]; Stat ["pkgs"; "template-base"];
        Exists ["pkgs"; "template-base"; "package.json"];
        ReadJson ["pkgs"; "template-base"; "package.json"];
        Log (Creating (JsStr "app") "base"); Exists ["work"; "app"];
        Exists ["pkgs"; "template-base"];
        Log (ShowPaths ["work"; "app"] ["pkgs"; "template-base"]);
        Spin SpinStart; Fetch "fraanlol/template-base" ["work"; "app"];
        Spin SpinSucceed]
  /\ exitStatus (Confinement.createProject (onlineEnv "app" "base")
                   JsUndefined (JsStr "base") brokenBaseCheckout) = 0%Z.
Proof. repeat split; reflexivity. Qed.

(** C8, amended.  In the confinement variant, a string whose template has
    a manifest that exists and cannot be parsed is resolved to ["base"],
    and no lifecycle warning is printed.  A requested template other than
    ["base"] is so replaced by the fallback; a request for ["base"] itself
    is resolved to ["base"] too.  The run never stops for it: it goes on
    with ["base"], and prints the warning that the template is not valid
    unless the option is ["base"] as written. *)
Theorem unparseable_manifest_falls_back
        (env : Collaborators) (fs : FileSystem) (s : string) :
  manifestUnparseable env fs (normalize s) = true ->
  outcome (Confinement.validateTemplate env (JsStr s) fs) = Return "base"
  /\ filter isLog (events (Confinement.validateTemplate env (JsStr s) fs)) = []
  /\ (normalize s <> "base" ->
      outcome (Confinement.validateTemplate env (JsStr s) fs) <> Return (normalize s))
  /\ forall projectName typed picked name,
       prompt env (negb (truthy projectName)) (asksTemplate (JsStr s))
       = Answered typed picked ->
       projectNameOf projectName typed = JsStr name ->
       In (Log (Creating (JsStr name) "base"))
          (events (Confinement.createProject env projectName (JsStr s) fs))
       /\ (s <> "base" ->
           In (Log (InvalidTemplate (JsStr s)))
              (events (Confinement.createProject env projectName (JsStr s) fs))).
Proof.
  intros Hbad.
  assert (confFinal env (JsStr s) fs = "base") as Hfinal.
  { destruct (conf_validate_cases env fs (JsStr s)) as [E | (s' & E & _ & _ & _ & Hok)];
      [exact E|]. injection E as <-. congruence. }
  split; [now rewrite conf_outcome, Hfinal|].
  split; [now apply unparseable_silent|].
  split; [rewrite conf_outcome, Hfinal; congruence|].
  intros projectName typed picked name Hp Hn.
  destruct (conf_run_preamble env projectName (JsStr s) fs typed picked name Hp Hn)
    as (rest & ->).
  split.
  - apply in_or_app. left. rewrite <- Hfinal. apply creating_in_confPreamble.
  - intros Hs. apply in_or_app. left. apply warning_in_confPreamble.
    rewrite Hfinal. cbn [strictNeqStr]. apply negb_true_iff.
    destruct (String.eqb_spec "base" s); [congruence|reflexivity].
Qed.

Lemma unparseable_manifest_falls_back_witness :
  manifestUnparseable (onlineEnv "app" "base") brokenManifestCheckout (normalize "Redux") = true
  /\ failsConfinement (onlineEnv "app" "base") brokenManifestCheckout (normalize "Redux") = false
  /\ outcome (Confinement.validateTemplate (onlineEnv "app" "base")
                (JsStr "Redux") brokenManifestCheckout) = Return "base".
Proof.
  split; [reflexivity|]. split; [reflexivity|].
  exact (proj1 (unparseable_manifest_falls_back (onlineEnv "app" "base")
                  brokenManifestCheckout "Redux" eq_refl)).
Defined.

(** X3. In the confinement variant a validated name is stable: validating
    the value [validateTemplate] returned, on the same filesystem, returns
    it again. *)
Theorem confinement_validated_stable
        (env : Collaborators) (fs : FileSystem) (t : JsValue) (v : string) :
  outcome (Confinement.validateTemplate env t fs) = Return v ->
  outcome (Confinement.validateTemplate env (JsStr v) fs) = Return v.
Proof.
  rewrite conf_outcome. intros H. injection H as <-.
  rewrite conf_decision.
  destruct (conf_validate_cases env fs t) as [-> | (s & _ & -> & Hre & Hok & Hman)].
  - change (normalize "base") with "base". now destruct (_ && _).
  - rewrite (normalize_plain _ Hre), Hre, Hok, Hman. reflexivity.
Qed.

Lemma confinement_validated_stable_witness :
  outcome (Confinement.validateTemplate (onlineEnv "app" "base")
             (JsStr "redux") scriptedCheckout) = Return "redux".
Proof.
  apply (confinement_validated_stable (onlineEnv "app" "base") scriptedCheckout
           (JsStr "  ReduX ") "redux").
  reflexivity.
Defined.

(** X5. In the confinement variant a lifecycle hook that the manifest of an
    accepted template declares is always reported: the warning that is
    printed lists it, and the template is returned. *)
Theorem declared_hook_is_warned
        (env : Collaborators) (fs : FileSystem) (s : string)
        (realCandidate : path) (j scripts : Json) (k : string) :
  templateNameRe (normalize s) = true ->
  failsConfinement env fs (normalize s) = false ->
  realpath fs (candidate env (normalize s)) = Some realCandidate ->
  exists_ fs (manifestOf realCandidate) = true ->
  readJson fs (manifestOf realCandidate) = Some j ->
  getScripts j = Some scripts ->
  hasOwnProperty scripts k = true ->
  In k Confinement.lifecycleKeys ->
  exists found,
    In k found
    /\ In (Log (LifecycleWarning (normalize s) found))
          (events (Confinement.validateTemplate env (JsStr s) fs))
    /\ outcome (Confinement.validateTemplate env (JsStr s) fs) = Return (normalize s).
Proof.
  intros Hre Hok Hrc Hman Hj Hs Hown Hk.
  rewrite (validateTemplate_parsed env fs s realCandidate j Hre Hok Hrc Hman Hj).
  assert (In k (declaredHooks j)) as Hin
      by (apply declaredHooks_spec; split; [exact Hk|now exists scripts]).
  exists (declaredHooks j). split; [exact Hin|]. split; [|reflexivity].
  cbn [events]. do 6 right. unfold hookWarning.
  destruct (declaredHooks j); [destruct Hin|now left].
Qed.

Lemma declared_hook_is_warned_witness :
  exists found,
    In "prepare" found
    /\ In (Log (LifecycleWarning (normalize "Redux") found))
          (events (Confinement.validateTemplate (onlineEnv "app" "base")
                     (JsStr "Redux") scriptedCheckout))
    /\ outcome (Confinement.validateTemplate (onlineEnv "app" "base")
                  (JsStr "Redux") scriptedCheckout) = Return (normalize "Redux").
Proof.
  apply (declared_hook_is_warned (onlineEnv "app" "base") scriptedCheckout "Redux"
           ["pkgs"; "template-redux"]
           (JsonObject
              [("name", JsonString "template-redux");
               ("scripts",
                JsonObject [("dev", JsonString "vite");
                            ("postinstall", JsonString "node setup.js");
                            ("prepare", JsonString "husky")])])
           (JsonObject [("dev", JsonString "vite");
                        ("postinstall", JsonString "node setup.js");
                        ("prepare", JsonString "husky")])
           "prepare");
    try reflexivity.
  simpl. tauto.
Defined.

(** ** Destinations of validated project names *)

Lemma trimStart_chars (p : ascii -> bool) (s : string) :
  allChars p (trimStart s) = true ->
  allChars (fun c => isWhiteSpace c || p c) s = true.
Proof.
  induction s as [|c s IH]; [reflexivity|]. cbn [trimStart allChars].
  destruct (isWhiteSpace c) eqn:E; cbn [orb andb]; [exact IH|].
  cbn [allChars]. intros H. apply andb_true_iff in H as [Hc Hs]. rewrite Hc.
  cbn [andb]. revert Hs. apply allChars_impl. intros c' ->. apply orb_true_r.
Qed.

Lemma trimEnd_chars (p : ascii -> bool) (s : string) :
  allChars p (trimEnd s) = true ->
  allChars (fun c => isWhiteSpace c || p c) s = true.
Proof.
  induction s as [|c s IH]; [reflexivity|]. cbn [trimEnd allChars].
  destruct (isWhiteSpace c) eqn:E; cbn [orb andb].
  - destruct (isEmpty (trimEnd s)) eqn:Ee.
    + intros _. apply IH. destruct (trimEnd s); [reflexivity|discriminate Ee].
    + cbn [allChars]. intros H. apply andb_true_iff in H as [_ Hs]. now apply IH.
  - cbn [allChars]. intros H. apply andb_true_iff in H as [-> Hs]. now apply IH.
Qed.

Lemma trim_chars (p : ascii -> bool) (s : string) :
  allChars p (trim s) = true ->
  allChars (fun c => isWhiteSpace c || p c) s = true.
Proof.
  intros H. apply trimEnd_chars in H. apply trimStart_chars in H.
  revert H. apply allChars_impl. intros c Hc.
  destruct (isWhiteSpace c); [reflexivity|exact Hc].
Qed.

Lemma padded_project_char (c : ascii) :
  isWhiteSpace c || projectChar c = true ->
  Ascii.eqb c "/" = false /\ Ascii.eqb c "." = false.
Proof. each_char c; intros _; split; reflexivity. Qed.

Lemma segments_single (s : string) :
  allChars (fun c => negb (Ascii.eqb c "/")) s = true -> Path.segments s = [s].
Proof.
  induction s as [|c s IH]; [reflexivity|]. cbn [allChars Path.segments].
  intros H. apply andb_true_iff in H as [Hc Hs]. apply negb_true_iff in Hc.
  now rewrite Hc, (IH Hs).
Qed.

(** A name without slash or dot is one path segment. *)
Lemma resolve_child (base : path) (s : string) :
  isEmpty s = false ->
  allChars (fun c => negb (Ascii.eqb c "/") && negb (Ascii.eqb c ".")) s = true ->
  Path.resolve base s = Path.join base s.
Proof.
  intros Hne Hc. unfold Path.resolve.
  rewrite segments_single
    by (revert Hc; apply allChars_impl; intros c H;
        now apply andb_true_iff in H as [H _]).
  destruct s as [|c s]; [discriminate Hne|]. cbn [allChars] in Hc.
  apply andb_true_iff in Hc as [Hc _]. apply andb_true_iff in Hc as [H1 H2].
  apply negb_true_iff in H1, H2.
  unfold Path.isAbsolute, startsWith. cbn [String.prefix].
  destruct (ascii_dec "/" c) as [<-|_]; [discriminate H1|].
  cbn [fold_left Path.enter]. unfold Path.enter. cbn [String.eqb]. now rewrite H2.
Qed.

(** X6. A project name that the allow-list variant's prompt accepts names a
    direct child of the working directory: the destination is
    [cwd/<input>] and the directory whose write access is tested is the
    working directory itself. *)
Theorem accepted_name_stays_in_cwd (env : Collaborators) (input : string) :
  AllowList.validate input = Accepted ->
  destination env input = Path.join (cwd env) input
  /\ Path.dirname (destination env input) = cwd env.
Proof.
  intros H. rewrite allow_validate_spec in H.
  destruct (isEmpty (trim input)); [discriminate H|].
  destruct (projectNameRe (trim input)) eqn:Hre; [|discriminate H]. clear H.
  unfold projectNameRe, testClassPlus in Hre.
  apply andb_true_iff in Hre as [Hne Hc]. apply negb_true_iff in Hne.
  assert (destination env input = Path.join (cwd env) input) as ->.
  { unfold destination. apply resolve_child.
    - destruct input; [discriminate Hne|reflexivity].
    - apply trim_chars in Hc. revert Hc. apply allChars_impl. intros c Hc.
      destruct (padded_project_char c Hc) as [-> ->]. reflexivity. }
  split; [reflexivity|]. unfold Path.dirname, Path.join. apply removelast_last.
Qed.

Lemma accepted_name_stays_in_cwd_witness :
  destination (onlineEnv "my-app" "base") " my-app"
  = Path.join (cwd (onlineEnv "my-app" "base")) " my-app"
  /\ Path.dirname (destination (onlineEnv "my-app" "base") " my-app")
     = cwd (onlineEnv "my-app" "base").
Proof.
  apply (accepted_name_stays_in_cwd (onlineEnv "my-app" "base") " my-app").
  reflexivity.
Defined.

(** ** Every run of the allow-list variant *)

Lemma allow_run_nameless_events
      (env : Collaborators) (projectName template : JsValue) (fs : FileSystem)
      (typed picked : string) :
  prompt env (negb (truthy projectName)) (asksTemplate template) = Answered typed picked ->
  isString (projectNameOf projectName typed) = false ->
  AllowList.createProject env projectName template fs
  = mkResult (Exit 1) fs
      (allowNameless projectName template picked (projectNameOf projectName typed)).
Proof.
  intros Hp Hn.
  unfold AllowList.createProject, AllowList.attempt, allowNameless, fallbackWarning,
    allowFinal, chosenTemplate, promptReport in *.
  unfold asksTemplate, projectNameOf in *.
  run_cbn. rewrite Hp. run_cbn.
  destruct (strictNeqStr _ _); run_cbn;
    destruct (jsOr projectName _); try discriminate Hn; reflexivity.
Qed.

(** Every run of the allow-list variant is of one of these shapes. *)
Lemma allow_run_shapes
      (env : Collaborators) (projectName template : JsValue) (fs : FileSystem) :
  AllowRun env projectName template fs
    (AllowList.createProject env projectName template fs).
Proof.
  destruct (prompt env (negb (truthy projectName)) (asksTemplate template))
    as [typed picked|error] eqn:Hp.
  2:{ rewrite (allow_run_rejected _ _ _ _ _ Hp). now constructor. }
  destruct (isString (projectNameOf projectName typed)) eqn:Hs.
  2:{ rewrite (allow_run_nameless_events _ _ _ _ _ _ Hp Hs). now econstructor. }
  destruct (projectNameOf projectName typed) as [| |b|z|name|] eqn:Hn;
    try discriminate Hs. clear Hs.
  destruct (exists_ fs (destination env name)) eqn:He.
  { rewrite (allow_run_exists _ _ _ _ _ _ Hp _ Hn He).
    eapply AllowGuarded; eauto. now constructor. }
  destruct (writable fs (Path.dirname (destination env name))) eqn:Hw.
  2:{ rewrite (allow_run_not_writable _ _ _ _ _ _ Hp _ Hn He Hw).
      eapply AllowGuarded; eauto. now constructor. }
  destruct (clone env (coordinateOf (allowFinal template picked)) (destination env name) fs)
    as [fs'|err fs'] eqn:Hc.
  { rewrite (allow_run_cloned _ _ _ _ _ _ Hp _ Hn _ He Hw Hc).
    eapply AllowGuarded; eauto. now constructor. }
  destruct (exists_ fs' (destination env name)) eqn:He'.
  2:{ rewrite (allow_run_failed_clean _ _ _ _ _ _ Hp _ Hn _ _ He Hw Hc He').
      eapply AllowGuarded; eauto.
      eapply (TailFailed _ _ _ _ _ err fs' [] fs'); eauto. now constructor. }
  destruct (remove env (destination env name) fs') as [|err' fs''] eqn:Hr.
  - rewrite (allow_run_failed_removed _ _ _ _ _ _ Hp _ Hn _ _ He Hw Hc He' Hr).
    eapply AllowGuarded; eauto.
    eapply (TailFailed _ _ _ _ _ err fs'
              [Remove (destination env name); Log CleanedUp]); eauto.
    now constructor.
  - rewrite (allow_run_failed_stuck _ _ _ _ _ _ Hp _ Hn _ _ _ _ He Hw Hc He' Hr).
    eapply AllowGuarded; eauto.
    eapply (TailFailed _ _ _ _ _ err fs'
              [Remove (destination env name); Log (CleanupWarning (JsStr name))]); eauto.
    econstructor; eauto.
Qed.

(** ** Every run of the confinement variant *)

Lemma conf_run_nameless_events
      (env : Collaborators) (projectName template : JsValue) (fs : FileSystem)
      (typed picked : string) :
  prompt env (negb (truthy projectName)) (asksTemplate template) = Answered typed picked ->
  isString (projectNameOf projectName typed) = false ->
  Confinement.createProject env projectName template fs
  = mkResult (Return tt) fs
      (confNameless env projectName template fs typed picked
                    (projectNameOf projectName typed)).
Proof.
  intros Hp Hn.
  unfold Confinement.createProject, Confinement.afterPrompt, confNameless,
    fallbackWarning, promptReport in *.
  unfold asksTemplate, projectNameOf in *.
  run_cbn. rewrite Hp. run_cbn. rewrite conf_validate_eq. run_cbn.
  destruct (strictNeqStr _ _); run_cbn;
    destruct (jsOr projectName _); try discriminate Hn; run_cbn;
    cbn [isTtyError typeError]; run_cbn;
    repeat (rewrite <- ?app_assoc; cbn [app]); reflexivity.
Qed.

(** Every run of the confinement variant is of one of these shapes. *)
Lemma conf_run_shapes
      (env : Collaborators) (projectName template : JsValue) (fs : FileSystem) :
  ConfRun env projectName template fs
    (Confinement.createProject env projectName template fs).
Proof.
  destruct (prompt env (negb (truthy projectName)) (asksTemplate template))
    as [typed picked|error] eqn:Hp.
  2:{ rewrite (conf_run_rejected _ _ _ _ _ Hp). now constructor. }
  destruct (isString (projectNameOf projectName typed)) eqn:Hs.
  2:{ rewrite (conf_run_nameless_events _ _ _ _ _ _ Hp Hs). now econstructor. }
  destruct (projectNameOf projectName typed) as [| |b|z|name|] eqn:Hn;
    try discriminate Hs. clear Hs.
  destruct (exists_ fs (destination env name)) eqn:He.
  { rewrite (conf_run_exists _ _ _ _ _ _ Hp _ Hn He).
    eapply ConfGuarded; eauto. now constructor. }
  destruct (exists_ fs (candidate env (confFinal env template fs))) eqn:Ht.
  2:{ rewrite (conf_run_missing _ _ _ _ _ _ Hp _ Hn He Ht).
      eapply ConfGuarded; eauto. now constructor. }
  destruct (clone env "fraanlol/template-base" (destination env name) fs)
    as [fs'|err fs'] eqn:Hc.
  - rewrite (conf_run_cloned _ _ _ _ _ _ Hp _ Hn _ He Ht Hc).
    eapply ConfGuarded; eauto. now constructor.
  - rewrite (conf_run_failed _ _ _ _ _ _ Hp _ Hn _ _ He Ht Hc).
    eapply ConfGuarded; eauto. now constructor.
Qed.

(** ** Exit status, fetch and removal over all runs *)

Lemma in_filter_nil {A} (f : A -> bool) (x : A) (l : list A) :
  filter f l = [] -> In x l -> f x = false.
Proof.
  intros Hnil Hin. destruct (f x) eqn:E; [|reflexivity].
  assert (In x (filter f l)) as H by (apply filter_In; now split).
  rewrite Hnil in H. destruct H.
Qed.

Lemma allowNameless_silent (projectName template : JsValue) (picked : string) (v : JsValue) :
  filter isFetch (allowNameless projectName template picked v) = []
  /\ filter isRemove (allowNameless projectName template picked v) = []
  /\ filter isSucceed (allowNameless projectName template picked v) = [].
Proof.
  unfold allowNameless, fallbackWarning.
  destruct (strictNeqStr _ _); now repeat split.
Qed.

Lemma allowPreamble_no_succeed (env : Collaborators) (projectName template : JsValue)
      (picked name : string) :
  filter isSucceed (allowPreamble env projectName template picked name) = [].
Proof. unfold allowPreamble, fallbackWarning. now destruct (strictNeqStr _ _). Qed.

(** X7. The allow-list variant ends with status 0 or 1, and with status 0
    exactly when the prompt resolved, the destination was free, its parent
    writable and the fetch succeeded; in such a run the filesystem is the
    one the fetch left, nothing was removed and the success message was
    printed. *)
Theorem allow_exit_status
        (env : Collaborators) (projectName template : JsValue) (fs : FileSystem) :
  (exitStatus (AllowList.createProject env projectName template fs) = 0%Z
   \/ exitStatus (AllowList.createProject env projectName template fs) = 1%Z)
  /\ (exitStatus (AllowList.createProject env projectName template fs) = 0%Z
      <-> exists typed picked name fs',
            prompt env (negb (truthy projectName)) (asksTemplate template)
            = Answered typed picked
            /\ projectNameOf projectName typed = JsStr name
            /\ exists_ fs (destination env name) = false
            /\ writable fs (Path.dirname (destination env name)) = true
            /\ clone env (coordinateOf (allowFinal template picked))
                     (destination env name) fs = Cloned fs')
  /\ (forall typed picked name fs',
        prompt env (negb (truthy projectName)) (asksTemplate template)
        = Answered typed picked ->
        projectNameOf projectName typed = JsStr name ->
        exists_ fs (destination env name) = false ->
        writable fs (Path.dirname (destination env name)) = true ->
        clone env (coordinateOf (allowFinal template picked))
              (destination env name) fs = Cloned fs' ->
        exitStatus (AllowList.createProject env projectName template fs) = 0%Z
        /\ fsAfter (AllowList.createProject env projectName template fs) = fs'
        /\ filter isRemove (events (AllowList.createProject env projectName template fs))
           = []
        /\ In (Log (Created (JsStr name)))
              (events (AllowList.createProject env projectName template fs))).
Proof.
  split; [|split].
  - destruct (allow_run_shapes env projectName template fs) as [| |? ? ? ? ? ? ? ? []];
      cbn; auto.
  - split.
    + intros Hz.
      destruct (allow_run_shapes env projectName template fs)
        as [error Hp|typed picked Hp Hs|typed picked name tail code after Hp Hn Htail];
        try discriminate Hz.
      destruct Htail as [He|He Hw|fs' He Hw Hc|err fs' cleanup after He Hw Hc Hcl];
        try discriminate Hz.
      exists typed, picked, name, fs'. now repeat split.
    + intros (typed & picked & name & fs' & Hp & Hn & He & Hw & Hc).
      now rewrite (allow_run_cloned _ _ _ _ _ _ Hp _ Hn _ He Hw Hc).
  - intros typed picked name fs' Hp Hn He Hw Hc.
    rewrite (allow_run_cloned _ _ _ _ _ _ Hp _ Hn _ He Hw Hc).
    cbn [exitStatus outcome fsAfter events]. repeat split.
    + rewrite filter_app.
      now rewrite (proj1 (proj2 (allowPreamble_silent env projectName template picked name))).
    + apply in_or_app. right. cbn. tauto.
Qed.

Lemma allow_exit_status_witness :
  exitStatus (AllowList.createProject (onlineEnv "app" "base")
                JsUndefined (JsStr "redux") checkout) = 0%Z.
Proof.
  apply (proj2 (proj1 (proj2 (allow_exit_status (onlineEnv "app" "base")
                                JsUndefined (JsStr "redux") checkout)))).
  exists "app", "base", "app", (withEntry ["work"; "app"] checkout).
  repeat split; reflexivity.
Defined.

(** X8. The allow-list variant removes nothing but the destination of the
    run, at most once, and only after a fetch into it that failed: the
    removal comes after the fetch in the run, with no other removal before,
    between or after.  That destination did not exist when the run began: a
    directory that was there before the run is never removed. *)
Theorem allow_removes_only_own_destination
        (env : Collaborators) (projectName template : JsValue) (fs : FileSystem) (p : path) :
  In (Remove p) (events (AllowList.createProject env projectName template fs)) ->
  exists typed picked name,
    prompt env (negb (truthy projectName)) (asksTemplate template) = Answered typed picked
    /\ projectNameOf projectName typed = JsStr name
    /\ p = destination env name
    /\ exists_ fs p = false
    /\ In (Fetch (coordinateOf (allowFinal template picked)) p)
          (events (AllowList.createProject env projectName template fs))
    /\ filter isRemove (events (AllowList.createProject env projectName template fs))
       = [Remove p]
    /\ (exists err fs',
          clone env (coordinateOf (allowFinal template picked)) p fs = CloneFailed err fs'
          /\ exists_ fs' p = true)
    /\ exists before between rest,
         events (AllowList.createProject env projectName template fs)
         = (before
            ++ Fetch (coordinateOf (allowFinal template picked)) p
            :: between ++ Remove p :: rest)%list
         /\ filter isRemove before = []
         /\ filter isRemove between = []
         /\ filter isRemove rest = [].
Proof.
  destruct (allow_run_shapes env projectName template fs)
    as [error Hp|typed picked Hp Hs|typed picked name tail code after Hp Hn Htail];
    cbn [events]; intros Hin.
  - destruct Hin as [H | [H | []]]; [discriminate H|].
    unfold promptReport in H. discriminate H.
  - apply (in_filter_nil isRemove _ _
             (proj1 (proj2 (allowNameless_silent projectName template picked _)))) in Hin.
    discriminate Hin.
  - pose proof (allowPreamble_silent env projectName template picked name) as (_ & HR & _).
    apply in_app_or in Hin as [Hin | Hin];
      [apply (in_filter_nil isRemove _ _ HR) in Hin; discriminate Hin|].
    exists typed, picked, name. split; [exact Hp|]. split; [exact Hn|].
    pose proof (errorReport_silent) as Her.
    destruct Htail as [He|He Hw|fs' He Hw Hc|err fs' cleanup after' He Hw Hc Hcl].
    + destruct Hin as [H | []]. discriminate H.
    + destruct Hin as [H | [H | []]]; discriminate H.
    + cbn in Hin. repeat (destruct Hin as [H | Hin]; [discriminate H|]). destruct Hin.
    + cbn [app] in Hin.
      do 5 (destruct Hin as [H | Hin]; [discriminate H|]).
      assert (forall l, In (Fetch (coordinateOf (allowFinal template picked))
                              (destination env name))
                           (allowPreamble env projectName template picked name
                            ++ Access (Path.dirname (destination env name))
                            :: Spin SpinStart
                            :: Fetch (coordinateOf (allowFinal template picked))
                                     (destination env name) :: l)) as Hfetch.
      { intros l. apply in_or_app. right. cbn. tauto. }
      assert (forall tl,
                 filter isRemove tl = [] ->
                 exists before between rest,
                   (allowPreamble env projectName template picked name
                    ++ Access (Path.dirname (destination env name))
                    :: Spin SpinStart
                    :: Fetch (coordinateOf (allowFinal template picked))
                             (destination env name)
                    :: Spin SpinFail :: Exists (destination env name)
                    :: Remove (destination env name) :: tl)%list
                   = (before
                      ++ Fetch (coordinateOf (allowFinal template picked))
                               (destination env name)
                      :: between ++ Remove (destination env name) :: rest)%list
                   /\ filter isRemove before = []
                   /\ filter isRemove between = []
                   /\ filter isRemove rest = []) as Hsplit.
      { intros tl Htl.
        exists (allowPreamble env projectName template picked name
                ++ [Access (Path.dirname (destination env name)); Spin SpinStart])%list,
               [Spin SpinFail; Exists (destination env name)], tl.
        split; [now rewrite <- app_assoc|]. split; [|now split].
        now rewrite filter_app, HR. }
      destruct Hcl as [He'|He' Hr|err' fs'' He' Hr]; cbn [app] in Hin.
      * apply (in_filter_nil isRemove _ _ (proj2 (Her err))) in Hin. discriminate Hin.
      * destruct Hin as [H | [H | Hin]]; [|discriminate H|].
        2:{ apply (in_filter_nil isRemove _ _ (proj2 (Her err))) in Hin. discriminate Hin. }
        injection H as <-. repeat split; try assumption; [apply Hfetch| |now exists err, fs'|].
        -- rewrite filter_app, HR. cbn [app filter isRemove]. now rewrite (proj2 (Her err)).
        -- cbn [app]. apply Hsplit. cbn [filter isRemove]. apply Her.
      * destruct Hin as [H | [H | Hin]]; [|discriminate H|].
        2:{ apply (in_filter_nil isRemove _ _ (proj2 (Her err))) in Hin. discriminate Hin. }
        injection H as <-. repeat split; try assumption; [apply Hfetch| |now exists err, fs'|].
        -- rewrite filter_app, HR. cbn [app filter isRemove]. now rewrite (proj2 (Her err)).
        -- cbn [app]. apply Hsplit. cbn [filter isRemove]. apply Her.
Qed.

Lemma allow_removes_only_own_destination_witness :
  exists typed picked name,
    prompt (offlineEnv "app" "base" Removed) true false = Answered typed picked
    /\ projectNameOf JsUndefined typed = JsStr name
    /\ ["work"; "app"] = destination (offlineEnv "app" "base" Removed) name
    /\ exists_ checkout ["work"; "app"] = false
    /\ In (Fetch (coordinateOf (allowFinal (JsStr "base") picked)) ["work"; "app"])
          (events (AllowList.createProject (offlineEnv "app" "base" Removed)
                     JsUndefined (JsStr "base") checkout))
    /\ filter isRemove
         (events (AllowList.createProject (offlineEnv "app" "base" Removed)
                    JsUndefined (JsStr "base") checkout))
       = [Remove ["work"; "app"]]
    /\ (exists err fs',
          clone (offlineEnv "app" "base" Removed)
                (coordinateOf (allowFinal (JsStr "base") picked)) ["work"; "app"] checkout
          = CloneFailed err fs'
          /\ exists_ fs' ["work"; "app"] = true)
    /\ exists before between rest,
         events (AllowList.createProject (offlineEnv "app" "base" Removed)
                   JsUndefined (JsStr "base") checkout)
         = (before
            ++ Fetch (coordinateOf (allowFinal (JsStr "base") picked)) ["work"; "app"]
            :: between ++ Remove ["work"; "app"] :: rest)%list
         /\ filter isRemove before = []
         /\ filter isRemove between = []
         /\ filter isRemove rest = [].
Proof.
  apply (allow_removes_only_own_destination (offlineEnv "app" "base" Removed)
           JsUndefined (JsStr "base") checkout ["work"; "app"]).
  cbn. tauto.
Defined.

Lemma confNameless_silent (env : Collaborators) (projectName template : JsValue)
      (fs : FileSystem) (typed picked : string) (v : JsValue) :
  filter isFetch (confNameless env projectName template fs typed picked v) = []
  /\ filter isRemove (confNameless env projectName template fs typed picked v) = [].
Proof.
  unfold confNameless. cbn [filter isFetch isRemove].
  rewrite !filter_app, confReads_no_fetch, confReads_no_remove.
  unfold fallbackWarning. destruct (strictNeqStr _ _); now split.
Qed.

(** X9. A run that does not fetch leaves the filesystem as it found it, in
    both variants: before the fetch nothing is written. *)
Theorem no_fetch_no_change
        (env : Collaborators) (projectName template : JsValue) (fs : FileSystem) :
  (filter isFetch (events (AllowList.createProject env projectName template fs)) = [] ->
   fsAfter (AllowList.createProject env projectName template fs) = fs)
  /\ (filter isFetch (events (Confinement.createProject env projectName template fs)) = [] ->
      fsAfter (Confinement.createProject env projectName template fs) = fs).
Proof.
  split.
  - destruct (allow_run_shapes env projectName template fs)
      as [error Hp|typed picked Hp Hs|typed picked name tail code after Hp Hn Htail];
      try reflexivity.
    cbn [events fsAfter]. rewrite filter_app.
    rewrite (proj1 (allowPreamble_silent env projectName template picked name)).
    destruct Htail; try reflexivity; cbn; discriminate.
  - destruct (conf_run_shapes env projectName template fs)
      as [error Hp|typed picked Hp Hs|typed picked name tail code after Hp Hn Htail];
      try reflexivity.
    cbn [events fsAfter]. rewrite filter_app.
    rewrite (proj1 (confPreamble_silent env projectName template fs typed picked name)).
    destruct Htail; try reflexivity; cbn; discriminate.
Qed.

Lemma no_fetch_no_change_witness :
  fsAfter (AllowList.createProject (onlineEnv "app" "base")
             JsUndefined (JsStr "base") lockedCheckout) = lockedCheckout.
Proof.
  apply (proj1 (no_fetch_no_change (onlineEnv "app" "base")
                  JsUndefined (JsStr "base") lockedCheckout)).
  reflexivity.
Defined.

(** X10. Every run calls the fetch at most once, in both variants, and the
    confinement variant never removes anything. *)
Theorem at_most_one_fetch
        (env : Collaborators) (projectName template : JsValue) (fs : FileSystem) :
  (length (filter isFetch (events (AllowList.createProject env projectName template fs)))
   <= 1)%nat
  /\ (length (filter isFetch
                (events (Confinement.createProject env projectName template fs))) <= 1)%nat
  /\ filter isRemove (events (Confinement.createProject env projectName template fs)) = [].
Proof.
  split; [|split].
  - destruct (allow_fetches env projectName template fs) as [-> | (? & ? & ? & _ & _ & ->)];
      cbn; lia.
  - destruct (conf_fetches env projectName template fs) as [-> | (? & ->)]; cbn; lia.
  - destruct (conf_run_shapes env projectName template fs)
      as [error Hp|typed picked Hp Hs|typed picked name tail code after Hp Hn Htail];
      cbn [events].
    + reflexivity.
    + apply confNameless_silent.
    + rewrite filter_app.
      rewrite (proj1 (proj2 (confPreamble_silent env projectName template fs
                               typed picked name))).
      now destruct Htail.
Qed.

(** X11. When the prompt cannot be answered no fetch is made and the
    filesystem is unchanged; the allow-list variant reports it and exits
    with status 1, the confinement variant reports it and ends with
    status 0. *)
Theorem prompt_failure_exit
        (env : Collaborators) (projectName template : JsValue) (fs : FileSystem)
        (error : JsError) :
  prompt env (negb (truthy projectName)) (asksTemplate template) = PromptRejected error ->
  AllowList.createProject env projectName template fs
  = mkResult (Exit 1) fs
      [Asked (negb (truthy projectName)) (asksTemplate template); promptReport error]
  /\ exitStatus (AllowList.createProject env projectName template fs) = 1%Z
  /\ Confinement.createProject env projectName template fs
     = mkResult (Return tt) fs
         [Asked (negb (truthy projectName)) (asksTemplate template); promptReport error]
  /\ exitStatus (Confinement.createProject env projectName template fs) = 0%Z.
Proof.
  intros Hp.
  rewrite (allow_run_rejected _ _ _ _ _ Hp), (conf_run_rejected _ _ _ _ _ Hp).
  now repeat split.
Qed.

Lemma prompt_failure_exit_witness :
  exitStatus (AllowList.createProject ttyEnv (JsStr "app") JsUndefined checkout) = 1%Z
  /\ exitStatus (Confinement.createProject ttyEnv (JsStr "app") JsUndefined checkout) = 0%Z.
Proof.
  pose proof (prompt_failure_exit ttyEnv (JsStr "app") JsUndefined checkout
                (mkError "no tty" "" true) eq_refl) as (_ & HB & _ & HA).
  split; [exact HB|exact HA].
Defined.

(** ** The template a run goes on with *)

Lemma includes_listed (s : string) :
  includes AVAILABLE_TEMPLATES s = true -> s = "base" \/ s = "redux".
Proof.
  unfold includes, AVAILABLE_TEMPLATES. cbn [existsb]. intros H.
  apply orb_true_iff in H as [H | H];
    [|apply orb_true_iff in H as [H | H]; [|discriminate H]];
    apply String.eqb_eq in H; auto.
Qed.

(** X12. With an option that is ["base"] or ["redux"] as written, the
    allow-list variant does not ask the template question, prints no
    fallback warning and goes on with that template: its first events are
    the prompt, the announcement and the destination check. *)
Theorem listed_option_used_as_is
        (env : Collaborators) (projectName : JsValue) (option : string) (fs : FileSystem)
        (typed picked name : string) :
  includes AVAILABLE_TEMPLATES option = true ->
  prompt env (negb (truthy projectName)) (asksTemplate (JsStr option))
  = Answered typed picked ->
  projectNameOf projectName typed = JsStr name ->
  asksTemplate (JsStr option) = false
  /\ exists rest,
       events (AllowList.createProject env projectName (JsStr option) fs)
       = Asked (negb (truthy projectName)) false
         :: Log (Creating (JsStr name) option)
         :: Exists (destination env name) :: rest.
Proof.
  intros Hin Hp Hn.
  assert (asksTemplate (JsStr option) = false) as Hask
      by (destruct (includes_listed option Hin) as [-> | ->]; reflexivity).
  split; [exact Hask|].
  destruct (allow_run_preamble env projectName (JsStr option) fs typed picked name Hp Hn)
    as (rest & ->).
  exists rest. unfold allowPreamble, allowFinal, chosenTemplate. rewrite Hask.
  destruct (includes_listed option Hin) as [-> | ->]; reflexivity.
Qed.

Lemma listed_option_used_as_is_witness :
  exists rest,
    events (AllowList.createProject (onlineEnv "app" "base")
              JsUndefined (JsStr "redux") checkout)
    = Asked (negb (truthy JsUndefined)) false
      :: Log (Creating (JsStr "app") "redux")
      :: Exists (destination (onlineEnv "app" "base") "app") :: rest.
Proof.
  apply (listed_option_used_as_is (onlineEnv "app" "base") JsUndefined "redux" checkout
           "app" "base" "app"); reflexivity.
Defined.

(** X13. Without a template option the template question is asked.  The
    allow-list variant goes on with the answer: a listed answer is used as
    it is, without a warning.  The confinement variant does not read the
    answer: it warns that the template is not valid and goes on with
    ["base"], whatever was picked. *)
Theorem missing_option
        (env : Collaborators) (projectName template : JsValue) (fs : FileSystem)
        (typed picked name : string) :
  truthy template = false ->
  prompt env (negb (truthy projectName)) (asksTemplate template) = Answered typed picked ->
  projectNameOf projectName typed = JsStr name ->
  asksTemplate template = true
  /\ (includes AVAILABLE_TEMPLATES picked = true ->
      exists rest,
        events (AllowList.createProject env projectName template fs)
        = Asked (negb (truthy projectName)) true
          :: Log (Creating (JsStr name) picked)
          :: Exists (destination env name) :: rest)
  /\ exists rest,
       events (Confinement.createProject env projectName template fs)
       = Asked (negb (truthy projectName)) true
         :: Log (ShowAnswers
                   (if negb (truthy projectName) then JsStr typed else JsUndefined)
                   (JsStr picked))
         :: Log (InvalidTemplate template)
         :: Log (Creating (JsStr name) "base")
         :: Exists (destination env name) :: rest.
Proof.
  intros Hf Hp Hn.
  assert (asksTemplate template = true) as Hask
      by (unfold asksTemplate; now rewrite Hf).
  split; [exact Hask|]. split.
  - intros Hin.
    destruct (allow_run_preamble env projectName template fs typed picked name Hp Hn)
      as (rest & ->).
    exists rest. unfold allowPreamble, allowFinal, chosenTemplate, jsOr.
    rewrite Hask, Hf.
    destruct (includes_listed picked Hin) as [-> | ->]; reflexivity.
  - destruct (conf_run_preamble env projectName template fs typed picked name Hp Hn)
      as (rest & ->).
    exists rest. unfold confPreamble. rewrite Hask.
    assert (Confinement.validateTemplate env template fs = mkResult (Return "base") fs [])
      as Hv.
    { destruct template as [| |b|z|s|]; try reflexivity.
      cbn [truthy] in Hf. apply negb_false_iff in Hf.
      destruct s; [reflexivity|discriminate Hf]. }
    unfold confReads, confFinal. rewrite Hv. cbn [events outcome app].
    unfold fallbackWarning.
    assert (strictNeqStr "base" template = true) as ->.
    { destruct template as [| |b|z|s|]; try reflexivity.
      cbn [truthy] in Hf. apply negb_false_iff in Hf.
      destruct s; [reflexivity|discriminate Hf]. }
    reflexivity.
Qed.

Lemma missing_option_witness :
  exists rest,
    events (Confinement.createProject (onlineEnv "app" "redux")
              JsUndefined JsUndefined checkout)
    = Asked (negb (truthy JsUndefined)) true
      :: Log (ShowAnswers
                (if negb (truthy JsUndefined) then JsStr "app" else JsUndefined)
                (JsStr "redux"))
      :: Log (InvalidTemplate JsUndefined)
      :: Log (Creating (JsStr "app") "base")
      :: Exists (destination (onlineEnv "app" "redux") "app") :: rest.
Proof.
  apply (missing_option (onlineEnv "app" "redux") JsUndefined JsUndefined checkout
           "app" "redux" "app"); reflexivity.
Defined.

(** ** The confinement variant's check of the local template *)

Lemma confReads_logs (env : Collaborators) (template : JsValue) (fs : FileSystem) :
  filter isMissing (confReads env template fs) = [].
Proof.
  unfold confReads.
  assert (forall l, (filter isLog l = [] \/ exists n f, filter isLog l = [Log (LifecycleWarning n f)]) ->
                    filter isMissing l = []) as H.
  { induction l as [|e l IH]; [reflexivity|].
    cbn [filter]. destruct e as [m| | | | | | | | |]; cbn [isLog isMissing];
      try exact IH.
    intros [Hn | (n & f & Hl)]; [discriminate Hn|].
    injection Hl as -> Hl. apply IH. now left. }
  apply H.
  destruct (lifecycle_warning_helper env fs template) as [E | (n & f & E)];
    [now left|right; now exists n, f].
Qed.

Lemma quiet_no_succeed (l : list Event) :
  forallb isQuiet l = true -> filter isSucceed l = [].
Proof.
  induction l as [|e l IH]; [reflexivity|].
  simpl. intros H. apply andb_true_iff in H as [He Hl].
  destruct e; try discriminate He; simpl; auto.
Qed.

Lemma confPreamble_plain (env : Collaborators) (projectName template : JsValue)
      (fs : FileSystem) (typed picked name : string) :
  filter isMissing (confPreamble env projectName template fs typed picked name) = []
  /\ filter isSucceed (confPreamble env projectName template fs typed picked name) = [].
Proof.
  unfold confPreamble. cbn [filter isMissing isSucceed].
  rewrite !filter_app, confReads_logs, (quiet_no_succeed _ (confReads_quiet env template fs)).
  unfold fallbackWarning. destruct (strictNeqStr _ _); now split.
Qed.

Lemma confNameless_plain (env : Collaborators) (projectName template : JsValue)
      (fs : FileSystem) (typed picked : string) (v : JsValue) :
  filter isMissing (confNameless env projectName template fs typed picked v) = []
  /\ filter isSucceed (confNameless env projectName template fs typed picked v) = [].
Proof.
  unfold confNameless. cbn [filter isMissing isSucceed].
  rewrite !filter_app, confReads_logs, (quiet_no_succeed _ (confReads_quiet env template fs)).
  unfold fallbackWarning. destruct (strictNeqStr _ _); now split.
Qed.

(** X14. The confinement variant calls the fetch only in a run whose
    destination did not exist and whose resolved template has its
    directory [template-<name>] under the templates root. *)
Theorem conf_fetch_guard
        (env : Collaborators) (projectName template : JsValue) (fs : FileSystem)
        (c : string) (d : path) :
  In (Fetch c d) (events (Confinement.createProject env projectName template fs)) ->
  exists typed picked name v,
    prompt env (negb (truthy projectName)) (asksTemplate template) = Answered typed picked
    /\ projectNameOf projectName typed = JsStr name
    /\ d = destination env name
    /\ exists_ fs d = false
    /\ outcome (Confinement.validateTemplate env template fs) = Return v
    /\ exists_ fs (candidate env v) = true.
Proof.
  destruct (conf_run_shapes env projectName template fs)
    as [error Hp|typed picked Hp Hs|typed picked name tail code after Hp Hn Htail];
    cbn [events]; intros Hin.
  - apply (in_filter_nil isFetch) in Hin; [discriminate Hin|reflexivity].
  - apply (in_filter_nil isFetch _ _
             (proj1 (confNameless_silent env projectName template fs typed picked _)))
      in Hin. discriminate Hin.
  - apply in_app_or in Hin as [Hin | Hin].
    { apply (in_filter_nil isFetch _ _
               (proj1 (confPreamble_silent env projectName template fs typed picked name)))
        in Hin. discriminate Hin. }
    exists typed, picked, name, (confFinal env template fs).
    split; [exact Hp|]. split; [exact Hn|].
    destruct Htail as [He|He Ht|fs' He Ht Hc|err fs' He Ht Hc]; cbn in Hin.
    + destruct Hin as [H | []]. discriminate H.
    + destruct Hin as [H | [H | []]]; discriminate H.
    + do 3 (destruct Hin as [H | Hin]; [discriminate H|]).
      destruct Hin as [H | [H | []]]; [|discriminate H]. injection H as _ <-.
      repeat split; try assumption. apply conf_outcome.
    + do 3 (destruct Hin as [H | Hin]; [discriminate H|]).
      destruct Hin as [H | [H | [H | []]]]; [|discriminate H..]. injection H as _ <-.
      repeat split; try assumption. apply conf_outcome.
Qed.

Lemma conf_fetch_guard_witness :
  exists typed picked name v,
    prompt (onlineEnv "app" "base") true false = Answered typed picked
    /\ projectNameOf JsUndefined typed = JsStr name
    /\ ["work"; "app"] = destination (onlineEnv "app" "base") name
    /\ exists_ checkout ["work"; "app"] = false
    /\ outcome (Confinement.validateTemplate (onlineEnv "app" "base")
                  (JsStr "redux") checkout) = Return v
    /\ exists_ checkout (candidate (onlineEnv "app" "base") v) = true.
Proof.
  apply (conf_fetch_guard (onlineEnv "app" "base") JsUndefined (JsStr "redux") checkout
           "fraanlol/template-base" ["work"; "app"]).
  cbn. tauto.
Defined.

(** X15. When the confinement variant reports that a template does not
    exist, it is the template validation returned; the run exits with
    status 1 without fetching.  That template is the fallback ["base"],
    unless [realpathSync] resolved a candidate that [existsSync] does not
    find. *)
Theorem template_missing_report
        (env : Collaborators) (projectName template : JsValue) (fs : FileSystem)
        (v : string) :
  In (Log (TemplateMissing v))
     (events (Confinement.createProject env projectName template fs)) ->
  outcome (Confinement.validateTemplate env template fs) = Return v
  /\ exists_ fs (candidate env v) = false
  /\ exitStatus (Confinement.createProject env projectName template fs) = 1%Z
  /\ filter isFetch (events (Confinement.createProject env projectName template fs)) = []
  /\ (v = "base" \/ realpath fs (candidate env v) <> None).
Proof.
  destruct (conf_run_shapes env projectName template fs)
    as [error Hp|typed picked Hp Hs|typed picked name tail code after Hp Hn Htail];
    cbn [events]; intros Hin.
  - destruct Hin as [H | [H | []]]; [discriminate H|].
    unfold promptReport in H. destruct (isTtyError error); discriminate H.
  - apply (in_filter_nil isMissing _ _
             (proj1 (confNameless_plain env projectName template fs typed picked _)))
      in Hin. discriminate Hin.
  - apply in_app_or in Hin as [Hin | Hin].
    { apply (in_filter_nil isMissing _ _
               (proj1 (confPreamble_plain env projectName template fs typed picked name)))
        in Hin. discriminate Hin. }
    destruct Htail as [He|He Ht|fs' He Ht Hc|err fs' He Ht Hc]; cbn in Hin.
    + destruct Hin as [H | []]. discriminate H.
    + destruct Hin as [H | [H | []]]; [discriminate H|]. injection H as <-.
      split; [apply conf_outcome|]. split; [exact Ht|]. split; [reflexivity|].
      split.
      * cbn [events]. rewrite filter_app.
        now rewrite (proj1 (confPreamble_silent env projectName template fs
                              typed picked name)).
      * destruct (conf_validate_cases env fs template)
          as [E | (s & _ & E & _ & Hok & _)]; [now left|].
        right. rewrite E. unfold failsConfinement in Hok.
        destruct (realpath fs (templatesRoot env)); [|discriminate Hok].
        destruct (realpath fs (candidate env (normalize s))); [discriminate|discriminate Hok].
    + repeat (destruct Hin as [H | Hin]; [discriminate H|]). destruct Hin.
    + repeat (destruct Hin as [H | Hin]; [discriminate H|]). destruct Hin.
Qed.

Lemma template_missing_report_witness :
  outcome (Confinement.validateTemplate (onlineEnv "app" "base")
             (JsStr "redux") emptyCheckout) = Return "base"
  /\ exists_ emptyCheckout (candidate (onlineEnv "app" "base") "base") = false
  /\ exitStatus (Confinement.createProject (onlineEnv "app" "base")
                   JsUndefined (JsStr "redux") emptyCheckout) = 1%Z
  /\ filter isFetch (events (Confinement.createProject (onlineEnv "app" "base")
                               JsUndefined (JsStr "redux") emptyCheckout)) = []
  /\ ("base" = "base"
      \/ realpath emptyCheckout (candidate (onlineEnv "app" "base") "base") <> None).
Proof.
  apply (template_missing_report (onlineEnv "app" "base") JsUndefined (JsStr "redux")
           emptyCheckout "base").
  cbn. tauto.
Defined.


(** X17. In a run of the allow-list variant that reaches the guard, the
    warning that the template is not valid is printed exactly when
    [validateTemplate] changed the chosen value, once and before the
    destination is checked: also when the value was only trimmed or
    lower-cased and no fallback took place. *)
Theorem fallback_warning_printed
        (env : Collaborators) (projectName template : JsValue) (fs : FileSystem)
        (typed picked name : string) :
  prompt env (negb (truthy projectName)) (asksTemplate template) = Answered typed picked ->
  projectNameOf projectName typed = JsStr name ->
  filter isFallbackWarning (events (AllowList.createProject env projectName template fs))
  = (if strictNeqStr (AllowList.validateTemplate (chosenTemplate template picked))
                     (chosenTemplate template picked)
     then [Log (InvalidTemplate (chosenTemplate template picked))]
     else [])
  /\ exists rest,
       events (AllowList.createProject env projectName template fs)
       = (Asked (negb (truthy projectName)) (asksTemplate template)
          :: (if strictNeqStr (AllowList.validateTemplate (chosenTemplate template picked))
                              (chosenTemplate template picked)
              then [Log (InvalidTemplate (chosenTemplate template picked))]
              else [])
          ++ Log (Creating (JsStr name)
                    (AllowList.validateTemplate (chosenTemplate template picked)))
          :: Exists (destination env name) :: rest)%list.
Proof.
  intros Hp Hn.
  destruct (allow_run_shapes env projectName template fs)
    as [error Hp'|typed' picked' Hp' Hs|typed' picked' name' tail code after Hp' Hn' Htail];
    try congruence.
  - rewrite Hp in Hp'. injection Hp' as <- <-. rewrite Hn in Hs. discriminate Hs.
  - rewrite Hp in Hp'. injection Hp' as <- <-. rewrite Hn in Hn'. injection Hn' as <-.
    cbn [events]. unfold allowPreamble, fallbackWarning, allowFinal. split.
    + cbn [filter isFallbackWarning]. rewrite !filter_app.
      assert (filter isFallbackWarning tail = []) as ->.
      { destruct Htail as [He|He Hw|fs' He Hw Hc|err fs' cleanup after' He Hw Hc Hcl];
          try reflexivity.
        cbn [app filter isFallbackWarning]. rewrite filter_app.
        unfold errorReport.
        destruct Hcl; cbn [app filter isFallbackWarning];
          now destruct (errCode err =? _). }
      destruct (strictNeqStr _ _); reflexivity.
    + exists tail. cbn [app]. f_equal. rewrite <- app_assoc. reflexivity.
Qed.

Lemma fallback_warning_printed_witness :
  filter isFallbackWarning
    (events (AllowList.createProject (onlineEnv "app" "base")
               JsUndefined (JsStr "REDUX") checkout))
  = [Log (InvalidTemplate (JsStr "REDUX"))].
Proof.
  apply (proj1 (fallback_warning_printed (onlineEnv "app" "base")
                  JsUndefined (JsStr "REDUX") checkout "app" "base" "app"
                  eq_refl eq_refl)).
Defined.
